(** * volt: the rebuild command and the link-strategy builder

    A shallow embedding of [cmd/rebuild.go] and [cmd/builder/symlink.go].

    - Go [string]s are byte sequences: [string] (a list of 8-bit [ascii]).
    - Go [error] values are [option string]: [None] is [nil], [Some msg] is a
      non-nil error whose [Error()] text is [msg].
    - The file system is a finite map from path to node.
    - A Go function body is a computation in a state monad with an early
      [return]; a goroutine's result channel is the FIFO sequence of the
      values sent on it. *)

From Stdlib Require Import Strings.String Strings.Ascii Strings.Byte List Arith NArith ZArith Lia Permutation.
From stdpp Require Import base option list gmap strings.

Set Default Proof Using "Type".
Open Scope string_scope.
Open Scope list_scope.

(** ** Go runtime: errors, early return, channels *)

Module Go.

(** [error]: [nil] or a message. *)
Definition error := option string.

Definition nil : error := None.

(** [errors.New(msg)]. *)
Definition errors_New (msg : string) : error := Some msg.

(** Where a statement sequence inside a function returning [R] stands:
    the function has returned, control goes on with a value, or the
    goroutine is blocked for good. *)
Inductive step (R A : Type) :=
| Ret (r : R)
| Cont (a : A)
| Block.
Arguments Ret {R A} r.
Arguments Cont {R A} a.
Arguments Block {R A}.

Definition M (S R A : Type) : Type := S -> step R A * S.

Definition ret {S R A} (a : A) : M S R A := fun s => (Cont a, s).

(** The [return r] statement. *)
Definition Return {S R A} (r : R) : M S R A := fun s => (Ret r, s).

Definition bind {S R A B} (m : M S R A) (k : A -> M S R B) : M S R B :=
  fun s =>
    match m s with
    | (Ret r, s') => (Ret r, s')
    | (Cont a, s') => k a s'
    | (Block, s') => (Block, s')
    end.

Definition get {S R} : M S R S := fun s => (Cont s, s).
Definition gets {S R A} (f : S -> A) : M S R A := fun s => (Cont (f s), s).
Definition put {S R} (s : S) : M S R unit := fun _ => (Cont tt, s).
Definition modify {S R} (f : S -> S) : M S R unit := fun s => (Cont tt, f s).

(** [if c { body }]. *)
Definition when {S R} (c : bool) (body : M S R unit) : M S R unit :=
  if c then body else ret tt.

(** [if err != nil { return err }]. *)
Definition return_if_err {S} (err : error) : M S error unit :=
  match err with
  | Some _ => Return err
  | None => ret tt
  end.

Definition is_err (err : error) : bool :=
  match err with Some _ => true | None => false end.

(** Running a computation on a component of a larger state. *)
Definition zoom {S T R A} (proj : T -> S) (upd : S -> T -> T)
    (m : M S R A) : M T R A :=
  fun t => let '(r, s') := m (proj t) in (r, upd s' t).

(** Calling a function whose body is [body]: its [return] ends the callee,
    not the caller; a body that runs to its end returns its last value. *)
Definition call {S R R'} (body : M S R' R') : M S R R' :=
  fun s =>
    match body s with
    | (Ret r, s') => (Cont r, s')
    | (Cont r, s') => (Cont r, s')
    | (Block, s') => (Block, s')
    end.

(** [defer deferred()] before the statements [rest]: the deferred call
    runs when the function returns, and the function returns what [rest]
    returned. *)
Definition defer {S R} (deferred : M S R unit) (rest : M S R R) : M S R R :=
  fun s =>
    match rest s with
    | (Ret r, s') | (Cont r, s') =>
        match deferred s' with
        | (Block, s'') => (Block, s'')
        | (_, s'') => (Ret r, s'')
        end
    | (Block, s') => (Block, s')
    end.

(** What a caller sees of a function. *)
Inductive outcome (R : Type) :=
| Returned (r : R)
| Blocked.
Arguments Returned {R} r.
Arguments Blocked {R}.

(** Running a whole function body from a state. *)
Definition run {S R} (body : M S R R) (s : S) : outcome R * S :=
  match body s with
  | (Ret r, s') => (Returned r, s')
  | (Cont r, s') => (Returned r, s')
  | (Block, s') => (Blocked, s')
  end.

(** *** Goroutines and a buffered result channel

    What the launching loop does for one unit of work: it sends a value on
    the channel itself, or it starts a goroutine that will send the values
    [sends], in that order, at times of its own. *)
Inductive task (A : Type) :=
| Sync (a : A)
| Async (sends : list A).
Arguments Sync {A} a.
Arguments Async {A} sends.

Definition task_sends {A} (t : task A) : list A :=
  match t with
  | Sync a => [a]
  | Async sends => sends
  end.

(** [arrival ts running q]: [q] is an order in which the values can enter
    the channel when the loop still has [ts] to launch and the goroutines
    already running still have [running] to send. No send blocks: the
    channel's capacity is the number of values sent. *)
Inductive arrival {A : Type} : list (task A) -> list (list A) -> list A -> Prop :=
| arrival_nil : arrival [] [] []
| arrival_exit ts run1 run2 q :
    arrival ts (run1 ++ run2) q ->
    arrival ts (run1 ++ [] :: run2) q
| arrival_sync a ts running q :
    arrival ts running q ->
    arrival (Sync a :: ts) running (a :: q)
| arrival_go sends ts running q :
    arrival ts (sends :: running) q ->
    arrival (Async sends :: ts) running q
| arrival_send a rest ts run1 run2 q :
    arrival ts (run1 ++ rest :: run2) q ->
    arrival ts (run1 ++ (a :: rest) :: run2) (a :: q).

(** A channel as its receiver sees it: the values still to be received, in
    the order they enter the channel, and how many were received. *)
Record chan (A : Type) := Chan { incoming : list A; received : nat }.
Arguments Chan {A} incoming received.
Arguments incoming {A} c.
Arguments received {A} c.

(** [<-c]: the next value; [None] when no value will ever come (the
    receiver blocks for good). *)
Definition recv {A} (c : chan A) : option (A * chan A) :=
  match incoming c with
  | [] => None
  | a :: q => Some (a, Chan q (S (received c)))
  end.

End Go.

Notation "'let*' x := m 'in' k" := (Go.bind m (fun x => k))
  (at level 10, x name, m at level 100, k at level 200).
Notation "'let*' ' p := m 'in' k" := (Go.bind m (fun x => match x with p => k end))
  (at level 10, p pattern, m at level 100, k at level 200).

(** ** [strings.NewReplacer] over single-byte patterns *)

Module Strings.

(** A replacer whose old strings are all one byte long: a table from byte
    to replacement; the first pair given for a byte wins. *)
Definition Replacer := list (ascii * string).

Fixpoint lookup (r : Replacer) (c : ascii) : option string :=
  match r with
  | [] => None
  | (o, n) :: r' => if Ascii.eqb o c then Some n else lookup r' c
  end.

(** [Replace]: every byte is looked up on its own; the output is never
    scanned again. *)
Fixpoint Replace (r : Replacer) (s : string) : string :=
  match s with
  | EmptyString => EmptyString
  | String c s' =>
      match lookup r c with
      | Some n => n +:+ Replace r s'
      | None => String c (Replace r s')
      end
  end.

End Strings.

(** [encodeReposPath]: [strings.NewReplacer("_", "__", "/", "_").Replace]. *)
Definition encodeReposPath (reposPath : string) : string :=
  Strings.Replace [("_"%char, "__"); ("/"%char, "_")] reposPath.

(** A path in which no [/] is directly followed by [_] or by another [/]. *)
Fixpoint separated (reposPath : string) : bool :=
  match reposPath with
  | EmptyString => true
  | String c rest =>
      match rest with
      | String d _ =>
          negb (Ascii.eqb c "/" && (Ascii.eqb d "_" || Ascii.eqb d "/")) && separated rest
      | EmptyString => true
      end
  end.

(** ** The file system *)

Module FS.

Definition bytes := list byte.

#[global] Instance byte_eq_decision : EqDecision byte := Byte.byte_eq_dec.

(** A path names a regular file with its content, or a directory with
    the files below it (relative path to content). *)
Inductive Node :=
| File (content : bytes)
| Dir (tree : gmap string bytes).

Abbreviation FS := (gmap string Node).

(** [pathutil.Exists]. The package is not among the sources; a path exists
    when the file system has a node for it. *)
Definition Exists (fs : FS) (path : string) : bool :=
  match fs !! path with
  | Some _ => true
  | None => false
  end.

Section Ops.
Context {R : Type}.

Definition pathutil_Exists (path : string) : Go.M FS R bool :=
  Go.gets (fun fs => Exists fs path).

(** [os.Open]: the handle is the path; opening a missing path fails. *)
Definition os_Open (path : string) : Go.M FS R (string * Go.error) :=
  Go.gets (fun fs =>
    match fs !! path with
    | Some _ => (path, Go.nil)
    | None => (path, Go.errors_New ("open " +:+ path +:+ ": no such file or directory"))
    end).

(** [File.Read] on a freshly opened handle into a buffer [buf]:
    the count, the error and the buffer afterwards. A regular file
    yields as many bytes as the buffer holds or the file has; reading
    at the end of the file gives [0, io.EOF]. *)
Definition File_Read (reader : string) (buf : bytes)
  : Go.M FS R (nat * Go.error * bytes) :=
  Go.gets (fun fs =>
    match fs !! reader with
    | Some (File content) =>
        match buf, content with
        | [], _ => (0, Go.nil, buf)
        | _, [] => (0, Go.errors_New "EOF", buf)
        | _, _ =>
            let n := Nat.min (length buf) (length content) in
            (n, Go.nil, take n content ++ drop n buf)
        end
    | Some (Dir _) => (0, Go.errors_New ("read " +:+ reader +:+ ": is a directory"), buf)
    | None => (0, Go.errors_New ("read " +:+ reader +:+ ": file already closed"), buf)
    end).

(** [os.Remove]: a file, or an empty directory. *)
Definition os_Remove (path : string) : Go.M FS R Go.error :=
  fun fs =>
    match fs !! path with
    | Some (File _) => (Go.Cont Go.nil, delete path fs)
    | Some (Dir tree) =>
        if bool_decide (size tree = 0)
        then (Go.Cont Go.nil, delete path fs)
        else (Go.Cont (Go.errors_New ("remove " +:+ path +:+ ": directory not empty")), fs)
    | None =>
        (Go.Cont (Go.errors_New ("remove " +:+ path +:+ ": no such file or directory")), fs)
    end.

(** [os.Create]: creates or truncates a regular file. *)
Definition os_Create (path : string) : Go.M FS R (string * Go.error) :=
  fun fs =>
    match fs !! path with
    | Some (Dir _) =>
        (Go.Cont (path, Go.errors_New ("open " +:+ path +:+ ": is a directory")), fs)
    | _ => (Go.Cont (path, Go.nil), <[path := File []]> fs)
    end.

(** [File.Write]: appends at the handle's offset, which is the end
    of what was written through it. *)
Definition File_Write (writer : string) (data : bytes)
  : Go.M FS R (nat * Go.error) :=
  fun fs =>
    match fs !! writer with
    | Some (File content) =>
        (Go.Cont (length data, Go.nil), <[writer := File (content ++ data)]> fs)
    | _ => (Go.Cont (0, Go.errors_New ("write " +:+ writer +:+ ": bad file descriptor")), fs)
    end.

(** [io.Copy(writer, reader)]: everything readable from [reader] is
    written to [writer]. *)
Definition io_Copy (writer reader : string) : Go.M FS R (nat * Go.error) :=
  fun fs =>
    match fs !! reader with
    | Some (File data) => File_Write writer data fs
    | Some (Dir _) => (Go.Cont (0, Go.errors_New ("read " +:+ reader +:+ ": is a directory")), fs)
    | None => (Go.Cont (0, Go.errors_New ("read " +:+ reader +:+ ": file already closed")), fs)
    end.

(** [os.MkdirAll], with the host's refusal if any: nothing to do for a
    directory that is there. *)
Definition os_MkdirAll (refusal : Go.error) (path : string) : Go.M FS R Go.error :=
  fun fs =>
    match refusal, fs !! path with
    | Some e, _ => (Go.Cont (Some e), fs)
    | None, Some (File _) =>
        (Go.Cont (Go.errors_New ("mkdir " +:+ path +:+ ": not a directory")), fs)
    | None, Some (Dir _) => (Go.Cont Go.nil, fs)
    | None, None => (Go.Cont Go.nil, <[path := Dir ∅]> fs)
    end.

(** [os.Rename], with the host's refusal if any: all or nothing. *)
Definition os_Rename (refusal : Go.error) (oldpath newpath : string)
  : Go.M FS R Go.error :=
  fun fs =>
    match refusal, fs !! oldpath with
    | Some e, _ => (Go.Cont (Some e), fs)
    | None, Some node => (Go.Cont Go.nil, <[newpath := node]> (delete oldpath fs))
    | None, None =>
        (Go.Cont (Go.errors_New ("rename " +:+ oldpath +:+ ": no such file or directory")), fs)
    end.

(** [ioutil.WriteFile], with the host's refusal if any. *)
Definition ioutil_WriteFile (refusal : Go.error) (path : string) (data : bytes)
  : Go.M FS R Go.error :=
  fun fs =>
    match refusal, fs !! path with
    | Some e, _ => (Go.Cont (Some e), fs)
    | None, Some (Dir _) =>
        (Go.Cont (Go.errors_New ("open " +:+ path +:+ ": is a directory")), fs)
    | None, _ => (Go.Cont Go.nil, <[path := File data]> fs)
    end.

End Ops.

End FS.

(** ** [cmd/rebuild.go]: the startup-file guard and installer *)

Module RC.
Import FS.

(** [const magicComment]: a double quote, the note, a line feed. *)
Definition magicComment : string :=
  String "034"%char
    (" NOTE: this file was generated by volt. please modify original file."
       +:+ String "010"%char EmptyString).

(** [[]byte(magicComment)]. *)
Definition magic : bytes := list_byte_of_string magicComment.

Definition no_magic (dst : string) : Go.error :=
  Go.errors_New ("'" +:+ dst +:+ "' does not have magic comment").

(** [for i := range magic { if magic[i] != read[i] { return ... } }] *)
Fixpoint compare_loop (dst : string) (magic read : bytes) (idx : list nat)
  : Go.M FS Go.error unit :=
  match idx with
  | [] => Go.ret tt
  | i :: idx' =>
      let* _ := Go.when (negb (Byte.eqb (nth i magic x00) (nth i read x00)))
                  (Go.Return (no_magic dst)) in
      compare_loop dst magic read idx'
  end.

(** [shouldHaveMagicComment]: an error unless [dst] starts with the marker. *)
Definition shouldHaveMagicComment (dst : string) : Go.M FS Go.error Go.error :=
  let* '(reader, err) := os_Open dst in
  let* _ := Go.return_if_err err in
  let read := replicate (length magic) x00 in
  let* '(n, err, read) := File_Read reader read in
  let* _ := Go.when (Go.is_err err || Nat.ltb n (String.length magicComment))
              (Go.Return (no_magic dst)) in
  let* _ := compare_loop dst magic read (seq 0 (length magic)) in
  Go.Return Go.nil.

(** [copyFileWithMagicComment]. *)
Definition copyFileWithMagicComment (src dst : string)
  : Go.M FS Go.error Go.error :=
  let* '(reader, err) := os_Open src in
  let* _ := Go.return_if_err err in
  let* '(writer, err) := os_Create dst in
  let* _ := Go.return_if_err err in
  let* '(_, err) := File_Write writer magic in
  let* _ := Go.return_if_err err in
  let* '(_, err) := io_Copy writer reader in
  Go.Return err.

Section Installer.
(** [pathutil.RCFileOf]: where a profile keeps its startup file. *)
Variable RCFileOf : string -> string -> string.

(** [installRCFile]. *)
Definition installRCFile (profileName srcRCFileName dst : string)
  : Go.M FS Go.error Go.error :=
  let* exists_dst := pathutil_Exists dst in
  let* _ := Go.when exists_dst
              (let* err := Go.call (shouldHaveMagicComment dst) in
               Go.return_if_err err) in
  let* _ := os_Remove dst in
  let* still := pathutil_Exists dst in
  let* _ := Go.when still
              (Go.Return (Go.errors_New ("failed to remove " +:+ dst))) in
  let src := RCFileOf profileName srcRCFileName in
  let* exists_src := pathutil_Exists src in
  let* _ := Go.when (negb exists_src) (Go.Return Go.nil) in
  let* err := Go.call (copyFileWithMagicComment src dst) in
  Go.Return err.
End Installer.

End RC.

(** ** Collaborators: [filepath], [lockjson], go-git *)

Module Filepath.

(** [filepath.Join] of two clean, non-empty elements. *)
Definition Join (a b : string) : string := a +:+ "/" +:+ b.

(** [filepath.Split]: the directory part ends with the last separator. *)
Fixpoint Split (path : string) : string * string :=
  match path with
  | EmptyString => (EmptyString, EmptyString)
  | String c rest =>
      let '(dir, file) := Split rest in
      match dir with
      | String _ _ => (String c dir, file)
      | EmptyString =>
          if Ascii.eqb c "/" then (String c EmptyString, file)
          else (EmptyString, String c file)
      end
  end.

Definition strip_separator (dir : string) : string :=
  match dir with
  | EmptyString => "."
  | String c EmptyString => dir
  | _ => String.substring 0 (String.length dir - 1) dir
  end.

(** [filepath.Dir] of a clean path. *)
Definition Dir (path : string) : string := strip_separator (fst (Split path)).

End Filepath.

Module LockJSON.

Definition ReposType := string.

(** Modelled from the spec: package [lockjson] is not among the sources;
    a repository's [Type] is one of git and static. *)
Definition ReposGitType : ReposType := "git".
Definition ReposStaticType : ReposType := "static".

(** [lockjson.Repos]. *)
Record Repos := mkRepos {
  Type_ : ReposType;
  Path : string;
  Version : string
}.

(** [lockjson.Profile]: a name, the selected repositories and the two
    startup-file flags. *)
Record Profile := mkProfile {
  Name : string;
  ReposPath : list string;
  UseVimrc : bool;
  UseGvimrc : bool
}.

(** [lockjson.LockJSON] with the two lookups the builders use; their
    bodies are not among the sources. *)
Record LockJSON := mkLockJSON {
  ActiveProfile : string;
  CurrentProfileName : string;
  Profiles_FindByName : string -> string + Profile;
  GetReposListByProfile : Profile -> string + list Repos
}.

End LockJSON.

Module Git.

(** [object.File]: a name, and what converting its mode and reading its
    blob give (an error text or the value). *)
Record File := mkFile {
  Name : string;
  Mode_ToOSFileMode : string + N;
  Contents : string + string
}.

(** [object.Tree] through its [Files()] iterator: the files it yields and
    the error that ends the iteration ([nil] for a clean end). *)
Record Tree := mkTree {
  Files : list File;
  Files_end : Go.error
}.

Record Commit := mkCommit { TreeHash : string }.

(** [git.Repository]: the object lookups and [Config()] with its
    [Core.IsBare] flag. *)
Record Repository := mkRepository {
  CommitObject : string -> string + Commit;
  TreeObject : string -> string + Tree;
  Config_IsBare : string + bool
}.

(** A file of a tree can be written out when its mode converts and its
    blob can be read. *)
Definition unreadable (file : File) : Prop :=
  (exists e, Mode_ToOSFileMode file = inl e)
  \/ (exists e, Contents file = inl e).

Definition readable (file : File) : Prop :=
  (exists m, Mode_ToOSFileMode file = inr m)
  /\ (exists c, Contents file = inr c).

(** [plumbing.NewHash] and [Hash.String] on a full hexadecimal id. *)
Definition NewHash (s : string) : string := s.

End Git.

(** ** [cmd/rebuild.go]: the per-repository workers *)

Module Worker.
Import LockJSON.

(** [copyReposResult]. *)
Record copyReposResult := mkResult {
  err : Go.error;
  repos : Repos
}.

(** The file-system calls a worker makes. *)
Inductive FsCall :=
| MkdirAll (dir : string) (perm : N)
| WriteFile (filename : string) (data : string) (perm : N)
| CopyDir (src dst : string).

(** A worker's own history: its file-system calls with what each returned,
    and the values it sent on [done]. *)
Record State := mkState {
  calls : list (FsCall * Go.error);
  done : list copyReposResult
}.

Definition init : State := mkState [] [].

Section Host.
(** [pathutil.FullReposPathOf]. *)
Variable FullReposPathOf : string -> string.
(** [git.PlainOpen] on this host. *)
Variable PlainOpen : string -> string + Git.Repository.
(** What the host answers to a file-system call. *)
Variable os : FsCall -> Go.error.

Context {R : Type}.

Definition syscall (c : FsCall) : Go.M State R Go.error :=
  fun s => (Go.Cont (os c), mkState (calls s ++ [(c, os c)]) (done s)).

(** [done <- r]. *)
Definition send (r : copyReposResult) : Go.M State R unit :=
  Go.modify (fun s => mkState (calls s) (done s ++ [r])).

End Host.

Section Workers.
Variable FullReposPathOf : string -> string.
Variable PlainOpen : string -> string + Git.Repository.
Variable os : FsCall -> Go.error.

(** The function literal handed to [ForEach] in [copyGitRepos]. *)
Definition copyFile (dst : string) (file : Git.File)
  : Go.M State Go.error Go.error :=
  match Git.Mode_ToOSFileMode file with
  | inl e => Go.Return (Go.errors_New ("failed to convert file mode: " +:+ e))
  | inr osMode =>
      match Git.Contents file with
      | inl e => Go.Return (Go.errors_New ("failed get file contents: " +:+ e))
      | inr contents =>
          let filename := Filepath.Join dst (Git.Name file) in
          let '(dir, _) := Filepath.Split filename in
          let* _ := syscall os (MkdirAll dir 493) in
          let* _ := syscall os (WriteFile filename contents osMode) in
          Go.Return Go.nil
      end
  end.

(** [FileIter.ForEach]: stops at the first error of the callback or of
    the iterator. *)
Fixpoint ForEach {R} (files : list Git.File) (at_end : Go.error)
    (cb : Git.File -> Go.M State Go.error Go.error) : Go.M State R Go.error :=
  match files with
  | [] => Go.ret at_end
  | f :: files' =>
      let* err := Go.call (cb f) in
      if Go.is_err err then Go.ret err else ForEach files' at_end cb
  end.

(** [copyGitRepos]. *)
Definition copyGitRepos (repos : Repos) (startDir : string)
  : Go.M State unit unit :=
  let src := FullReposPathOf (Path repos) in
  let dst := Filepath.Join startDir (encodeReposPath (Path repos)) in
  match PlainOpen src with
  | inl e =>
      let* _ := send (mkResult (Go.errors_New ("failed to open repository: " +:+ e)) repos) in
      Go.Return tt
  | inr r =>
      let commit := Git.NewHash (Version repos) in
      match Git.CommitObject r commit with
      | inl e =>
          let* _ := send (mkResult (Go.errors_New ("failed to get HEAD commit object: " +:+ e)) repos) in
          Go.Return tt
      | inr commitObj =>
          match Git.TreeObject r (Git.TreeHash commitObj) with
          | inl e =>
              let* _ := send (mkResult (Go.errors_New ("failed to get tree " +:+ commit +:+ ": " +:+ e)) repos) in
              Go.Return tt
          | inr tree =>
              let* err := ForEach (Git.Files tree) (Git.Files_end tree) (copyFile dst) in
              let* _ := Go.when (Go.is_err err)
                          (let* _ := send (mkResult err repos) in Go.Return tt) in
              send (mkResult Go.nil repos)
          end
      end
  end.

(** [copyStaticRepos]. *)
Definition copyStaticRepos (repos : Repos) (startDir : string)
  : Go.M State unit unit :=
  let src := FullReposPathOf (Path repos) in
  let dst := Filepath.Join startDir (encodeReposPath (Path repos)) in
  let* err := syscall os (CopyDir src dst) in
  match err with
  | Some e =>
      let* _ := send (mkResult (Go.errors_New ("failed to copy static directory: " +:+ e)) repos) in
      Go.Return tt
  | None => send (mkResult Go.nil repos)
  end.

(** What a worker goroutine sends on [done], from start to end. *)
Definition sends (worker : Go.M State unit unit) : list copyReposResult :=
  done (snd (Go.run worker init)).

End Workers.

(** The calls that writing out one file of a tree takes, with the host's
    answers: the parent directories, then the file with its converted mode.
    None for a file whose mode or content cannot be had. *)
Definition file_calls (os : FsCall -> Go.error) (dst : string) (file : Git.File)
  : list (FsCall * Go.error) :=
  match Git.Mode_ToOSFileMode file, Git.Contents file with
  | inr osMode, inr contents =>
      let filename := Filepath.Join dst (Git.Name file) in
      [(MkdirAll (fst (Filepath.Split filename)) 493,
        os (MkdirAll (fst (Filepath.Split filename)) 493));
       (WriteFile filename contents osMode, os (WriteFile filename contents osMode))]
  | _, _ => []
  end.



End Worker.

(** ** [cmd/rebuild.go]: the orchestrator *)

Module Rebuild.
Import LockJSON FS.
Export Worker.

(** The three branches of the launching loop: [go cmd.copyGitRepos(...)],
    [go cmd.copyStaticRepos(...)], [copyDone <- copyReposResult{...}]. *)
Inductive Launch :=
| GoCopyGit (repos : Repos)
| GoCopyStatic (repos : Repos)
| SendNow (result : copyReposResult).

(** What the rebuild does to the start directory and which units of work
    it launches, in program order. *)
Inductive Event :=
| EvRename (oldpath newpath : string) (err : Go.error)
| EvMkdirAll (path : string) (err : Go.error)
| EvGoRemoveAll (path : string)
| EvLaunch (l : Launch).

Record World := mkWorld {
  fs : FS;
  trace : list Event;
  copyDone : Go.chan copyReposResult
}.

Definition set_fs (f : FS) (w : World) : World :=
  mkWorld f (trace w) (copyDone w).

(** The host the command runs on: package [pathutil], the lock file, the
    random source, the answers of the operating system, and the order in
    which the results of this run enter [copyDone]. *)
Record Host := mkHost {
  VimDir : string;
  VimVoltStartDir : string;
  RCFileOf : string -> string -> string;
  FullReposPathOf : string -> string;
  LookUpVimrcOrGvimrc : list string;
  lockjson_Read : string + LockJSON;
  PlainOpen : string -> string + Git.Repository;
  os : FsCall -> Go.error;
  random : string;
  Rename_err : Go.error;
  MkdirAll_err : Go.error;
  RemoveAll_err : Go.error;
  schedule : list copyReposResult
}.

Section Orchestrator.
Variable h : Host.

Definition log {R} (ev : Event) : Go.M World R unit :=
  Go.modify (fun w => mkWorld (fs w) (trace w ++ [ev]) (copyDone w)).

Definition on_fs {R A} (m : Go.M FS R A) : Go.M World R A :=
  Go.zoom fs set_fs m.

(** [getActiveProfileRepos]. *)
Definition getActiveProfileRepos (lockJSON : LockJSON) : string + list Repos :=
  match Profiles_FindByName lockJSON (ActiveProfile lockJSON) with
  | inl e => inl e
  | inr profile => GetReposListByProfile lockJSON profile
  end.

(** [randomString]: a random 64-bit number in base 36. *)
Definition randomString : string := random h.

(** [os.Rename] and [os.MkdirAll] on the start directory, recorded. *)
Definition os_Rename (oldpath newpath : string) : Go.M World Go.error Go.error :=
  let* err := on_fs (FS.os_Rename (Rename_err h) oldpath newpath) in
  let* _ := log (EvRename oldpath newpath err) in
  Go.ret err.

Definition os_MkdirAll (path : string) : Go.M World Go.error Go.error :=
  let* err := on_fs (FS.os_MkdirAll (MkdirAll_err h) path) in
  let* _ := log (EvMkdirAll path err) in
  Go.ret err.

(** [removeStartDir]: the channel it returns is known by the value the
    deleting goroutine will send on it; [None] is the nil channel. *)
Definition removeStartDir (startDir : string)
  : Go.M World Go.error (option Go.error * Go.error) :=
  let oldDir := startDir +:+ ".old" +:+ randomString in
  let* err := os_Rename startDir oldDir in
  match err with
  | Some _ => Go.ret (None, err)
  | None =>
      let* _ := log (EvGoRemoveAll oldDir) in
      Go.ret (Some (RemoveAll_err h), Go.nil)
  end.

(** [<-removeDone]: the deletion is over; when it went through, the
    retired directory is gone. *)
Definition join_remove (startDir : string) (removeDone : option Go.error)
  : Go.M World Go.error Go.error :=
  match removeDone with
  | None => Go.ret Go.nil
  | Some None =>
      let oldDir := startDir +:+ ".old" +:+ randomString in
      let* _ := Go.modify (fun w => set_fs (delete oldDir (fs w)) w) in
      Go.ret Go.nil
  | Some (Some e) => Go.ret (Some e)
  end.

(** The guard loop over [pathutil.LookUpVimrcOrGvimrc()]. *)
Fixpoint guard_loop (files : list string) : Go.M World Go.error unit :=
  match files with
  | [] => Go.ret tt
  | file :: files' =>
      let* err := Go.call (on_fs (RC.shouldHaveMagicComment file)) in
      match err with
      | Some e =>
          Go.Return (Go.errors_New ("already exists user vimrc or gvimrc: " +:+ e))
      | None => guard_loop files'
      end
  end.

Definition invalid_type (repos : Repos) : copyReposResult :=
  mkResult (Go.errors_New ("invalid repository type: " +:+ Type_ repos)) repos.

(** One turn of the launching loop. *)
Definition launch (repos : Repos) : Launch :=
  if String.eqb (Type_ repos) ReposGitType then GoCopyGit repos
  else if String.eqb (Type_ repos) ReposStaticType then GoCopyStatic repos
  else SendNow (invalid_type repos).

Fixpoint launch_loop (reposList : list Repos) : Go.M World Go.error unit :=
  match reposList with
  | [] => Go.ret tt
  | repos :: rest =>
      let* _ := log (EvLaunch (launch repos)) in
      launch_loop rest
  end.

(** [result := <-copyDone]. *)
Definition recv_copyDone : Go.M World Go.error copyReposResult :=
  fun w =>
    match Go.recv (copyDone w) with
    | Some (result, c) => (Go.Cont result, mkWorld (fs w) (trace w) c)
    | None => (Go.Block, w)
    end.

Definition copy_failed (result : copyReposResult) (e : string) : Go.error :=
  Go.errors_New ("failed to copy repository '" +:+ Path (repos result) +:+ "': " +:+ e).

(** [for i := 0; i < len(reposList); i++ { result := <-copyDone; ... }] *)
Fixpoint wait_copy (n : nat) : Go.M World Go.error unit :=
  match n with
  | 0 => Go.ret tt
  | S n' =>
      let* result := recv_copyDone in
      match err result with
      | Some e => Go.Return (copy_failed result e)
      | None => wait_copy n'
      end
  end.

Definition remove_failed (startDir e : string) : Go.error :=
  Go.errors_New ("failed to remove '" +:+ startDir +:+ "': " +:+ e).

(** Lines 99 to 133 of [doRebuild]: launch, wait, report. *)
Definition install (startDir : string) (reposList : list Repos)
    (removeDone : option Go.error) : Go.M World Go.error Go.error :=
  let* _ := Go.modify (fun w => mkWorld (fs w) (trace w) (Go.Chan (schedule h) 0)) in
  let* _ := launch_loop reposList in
  let* removeErr := join_remove startDir removeDone in
  let* _ := wait_copy (length reposList) in
  match removeErr with
  | Some e => Go.Return (remove_failed startDir e)
  | None => Go.Return Go.nil
  end.

(** Lines 47 to 81 of [doRebuild]: the lock file, the guard and the two
    startup files. *)
Definition startup : Go.M World Go.error (list Repos) :=
  let vimDir := VimDir h in
  match lockjson_Read h with
  | inl e => Go.Return (Go.errors_New ("could not read lock.json: " +:+ e))
  | inr lockJSON =>
      match getActiveProfileRepos lockJSON with
      | inl e => Go.Return (Some e)
      | inr reposList =>
          let* _ := guard_loop (LookUpVimrcOrGvimrc h) in
          let* err := Go.call (on_fs (RC.installRCFile (RCFileOf h)
                        (ActiveProfile lockJSON) "vimrc.vim" (Filepath.Join vimDir "vimrc"))) in
          let* _ := Go.return_if_err err in
          let* err := Go.call (on_fs (RC.installRCFile (RCFileOf h)
                        (ActiveProfile lockJSON) "gvimrc.vim" (Filepath.Join vimDir "gvimrc"))) in
          let* _ := Go.return_if_err err in
          Go.ret reposList
      end
  end.

(** Lines 83 to 95 of [doRebuild]: the start directory is retired and
    made anew. *)
Definition retire (startDir : string) : Go.M World Go.error (option Go.error) :=
  let* there := on_fs (pathutil_Exists startDir) in
  let* removeDone :=
    (if there : bool then
       let* '(removeDone, err) := removeStartDir startDir in
       let* _ := Go.return_if_err err in
       Go.ret removeDone
     else Go.ret None) in
  let* err := os_MkdirAll startDir in
  let* _ := Go.return_if_err err in
  Go.ret removeDone.

Definition prepare : Go.M World Go.error (list Repos * option Go.error) :=
  let* reposList := startup in
  let* removeDone := retire (VimVoltStartDir h) in
  Go.ret (reposList, removeDone).

(** [doRebuild]. *)
Definition doRebuild : Go.M World Go.error Go.error :=
  let* '(reposList, removeDone) := prepare in
  install (VimVoltStartDir h) reposList removeDone.

(** The unit of work behind one turn of the launching loop. *)
Definition task_of (startDir : string) (repos : Repos) : Go.task copyReposResult :=
  match launch repos with
  | GoCopyGit r =>
      Go.Async (sends (copyGitRepos (FullReposPathOf h) (PlainOpen h) (os h) r startDir))
  | GoCopyStatic r =>
      Go.Async (sends (copyStaticRepos (FullReposPathOf h) (os h) r startDir))
  | SendNow result => Go.Sync result
  end.

(** The orders in which the results of a run can enter [copyDone]. *)
Definition admissible (reposList : list Repos) : Prop :=
  Go.arrival (map (task_of (VimVoltStartDir h)) reposList) [] (schedule h).

End Orchestrator.

End Rebuild.

(** ** [cmd/rebuild.go]: the command *)

Module Command.
Import Rebuild.

(** What the command does around the rebuild: the transaction of package
    [transaction] and the lines for the error log. *)
Inductive Event :=
| TransactionCreate (err : Go.error)
| TransactionRemove
| LoggerError (args : list string).

Record State := mkState {
  events : list Event;
  world : World
}.

(** The host of the rebuild, and what [transaction.Create()] answers. *)
Record Host := mkHost {
  rebuild : Rebuild.Host;
  transaction_Create : Go.error
}.

Section Command.
Variable h : Host.

Definition record {R} (ev : Event) : Go.M State R unit :=
  Go.modify (fun s => mkState (events s ++ [ev]) (world s)).

Definition on_world {R A} (m : Go.M World R A) : Go.M State R A :=
  Go.zoom world (fun w s => mkState (events s) w) m.

(** [Rebuild]: the exit code of the command. *)
Definition Rebuild (args : list string) : Go.M State Z Z :=
  let err := transaction_Create h in
  let* _ := record (TransactionCreate err) in
  match err with
  | Some e =>
      let* _ := record (LoggerError ["Failed to begin transaction:"; e]) in
      Go.Return 10%Z
  | None =>
      Go.defer (record TransactionRemove)
        (let* err := Go.call (on_world (doRebuild (rebuild h))) in
         match err with
         | Some e =>
             let* _ := record (LoggerError ["Failed to rebuild:"; e]) in
             Go.Return 11%Z
         | None => Go.Return 0%Z
         end)
  end.

End Command.

End Command.

(** ** [cmd/builder/symlink.go]: the link-strategy builder *)

Module Symlink.
Import LockJSON FS.

(** [actionReposResult]: [repos] is a pointer that may be nil. *)
Record actionReposResult := mkResult {
  err : Go.error;
  repos : option Repos
}.

(** [buildinfo.Repos] and [buildinfo.BuildInfo]. *)
Record BuildRepos := mkBuildRepos {
  Type_ : ReposType;
  Path : string;
  Version : string
}.

(** What a worker asks of the host. *)
Inductive Call :=
| OsSymlink (src dst : string)
| Mklink (dst src : string)
| Helptags (reposPath vimExePath : string).

Record State := mkState {
  calls : list (Call * Go.error);
  done : list actionReposResult
}.

Definition init : State := mkState [] [].

(** [%q] of a string that needs no escaping. *)
Definition fmt_q (s : string) : string :=
  String "034"%char (s +:+ String "034"%char EmptyString).

Section Worker.
(** [pathutil.FullReposPathOf] and [pathutil.PackReposPathOf]. *)
Variable FullReposPathOf PackReposPathOf : string -> string.
Variable PlainOpen : string -> string + Git.Repository.
(** [runtime.GOOS]. *)
Variable GOOS : string.
(** What the host answers to a call. *)
Variable host : Call -> Go.error.
(** Modelled from the spec: [copyBuilder.updateBareGitRepos] is not among
    the sources; like every unit of work it hands exactly one result to
    the channel it is given, and this is the value that the receive
    after the call takes from [updateDone]. *)
Variable updateBareGitRepos : string -> string -> Repos -> string -> actionReposResult.

Definition ask {R} (c : Call) : Go.M State R Go.error :=
  fun s => (Go.Cont (host c), mkState (calls s ++ [(c, host c)]) (done s)).

(** [done <- r]. *)
Definition send {R} (r : actionReposResult) : Go.M State R unit :=
  Go.modify (fun s => mkState (calls s) (done s ++ [r])).

(** [symlink]: a junction on Windows, a symbolic link elsewhere. *)
Definition symlink (src dst : string) : Go.M State Go.error Go.error :=
  if String.eqb GOOS "windows" then
    let* err := ask (Mklink dst src) in Go.Return err
  else
    let* err := ask (OsSymlink src dst) in Go.Return err.

(** [BaseBuilder.helptags], a call of the editor. *)
Definition helptags (reposPath vimExePath : string) : Go.M State Go.error Go.error :=
  let* err := ask (Helptags reposPath vimExePath) in Go.Return err.

(** The [if repos.Type == lockjson.ReposGitType] block of [installRepos]:
    the value of [copied] after it. *)
Definition probe_bare (repos : Repos) (src dst vimExePath : string)
  : Go.M State unit bool :=
  if String.eqb (LockJSON.Type_ repos) ReposGitType then
    match PlainOpen src with
    | inl e =>
        let* _ := send (mkResult (Go.errors_New ("repository " +:+ fmt_q src +:+ ": " +:+ e)) None) in
        Go.Return tt
    | inr r =>
        match Git.Config_IsBare r with
        | inl e =>
            let* _ := send (mkResult (Go.errors_New
                        ("failed to get repository config of " +:+ fmt_q src +:+ ": " +:+ e)) None) in
            Go.Return tt
        | inr true =>
            let result := updateBareGitRepos src dst repos vimExePath in
            let* _ := Go.when (Go.is_err (err result))
                        (let* _ := send (mkResult (err result) None) in Go.Return tt) in
            Go.ret true
        | inr false => Go.ret false
        end
    end
  else Go.ret false.

(** [installRepos]. *)
Definition installRepos (repos : Repos) (vimExePath : string)
  : Go.M State unit unit :=
  let src := FullReposPathOf (LockJSON.Path repos) in
  let dst := PackReposPathOf (LockJSON.Path repos) in
  let* copied := probe_bare repos src dst vimExePath in
  let* _ := Go.when (negb copied)
              (let* err := Go.call (symlink src dst) in
               let* _ := Go.when (Go.is_err err)
                           (let* _ := send (mkResult err None) in Go.Return tt) in
               let* err := Go.call (helptags (LockJSON.Path repos) vimExePath) in
               Go.when (Go.is_err err)
                 (let* _ := send (mkResult err None) in Go.Return tt)) in
  send (mkResult Go.nil (Some repos)).

(** What the worker goroutine sends on [done], from start to end. *)
Definition sends (worker : Go.M State unit unit) : list actionReposResult :=
  done (snd (Go.run worker init)).

End Worker.

(** The builder's world: the file system, the caller's [buildInfo.Repos],
    the launched workers in program order, whether [buildInfo.Write()] was
    called, and the result channel. *)
Record World := mkWorld {
  fs : FS;
  buildInfo : list BuildRepos;
  launched : list Repos;
  wrote_buildInfo : bool;
  done_chan : Go.chan actionReposResult
}.

(** The host: package [pathutil], the lock file, the methods of
    [BaseBuilder] and the packages [plugconf] and [buildinfo] (none among
    the sources), the answers of the operating system, and the order in
    which the results of this run enter [done]. *)
Record Host := mkHost {
  VimExecutable : nat -> string * Go.error;
  VimDir : string;
  Vimrc : string;
  Gvimrc : string;
  VimVoltOptDir : string;
  BundledPlugConf : string;
  FullReposPathOf : string -> string;
  PackReposPathOf : string -> string;
  lockjson_Read : string + LockJSON;
  getCurrentProfileAndReposList : LockJSON -> string + (Profile * list Repos);
  installVimrcAndGvimrc : string -> string -> string -> bool -> bool -> FS -> Go.error * FS;
  GenerateBundlePlugconf : list Repos -> bytes * Go.error;
  buildInfo_Write : list BuildRepos -> Go.error;
  PlainOpen : string -> string + Git.Repository;
  GOOS : string;
  host : Call -> Go.error;
  updateBareGitRepos : string -> string -> Repos -> string -> actionReposResult;
  MkdirAll_err : string -> Go.error;
  WriteFile_err : string -> Go.error;
  schedule : list actionReposResult
}.

Section Builder.
Variable h : Host.

Definition on_fs {R A} (m : Go.M FS R A) : Go.M World R A :=
  Go.zoom fs (fun f w => mkWorld f (buildInfo w) (launched w) (wrote_buildInfo w) (done_chan w)) m.

(** One turn of the launching loop: [go builder.installRepos(...)] and
    one more record in [buildInfo.Repos]. *)
Fixpoint launch_loop (reposList : list Repos) : Go.M World Go.error unit :=
  match reposList with
  | [] => Go.ret tt
  | repos :: rest =>
      let* _ := Go.modify (fun w =>
                  mkWorld (fs w)
                    (buildInfo w ++ [mkBuildRepos (LockJSON.Type_ repos)
                                       (LockJSON.Path repos) (LockJSON.Version repos)])
                    (launched w ++ [repos]) (wrote_buildInfo w) (done_chan w)) in
      launch_loop rest
  end.

(** [result := <-done]. *)
Definition recv_done : Go.M World Go.error actionReposResult :=
  fun w =>
    match Go.recv (done_chan w) with
    | Some (result, c) =>
        (Go.Cont result, mkWorld (fs w) (buildInfo w) (launched w) (wrote_buildInfo w) c)
    | None => (Go.Block, w)
    end.

(** The collecting loop; [err] is the variable of the enclosing
    function, last assigned by [vimExePath, err := pathutil.VimExecutable()]. *)
Fixpoint wait_done (err : Go.error) (n : nat) : Go.M World Go.error unit :=
  match n with
  | 0 => Go.ret tt
  | S n' =>
      let* result := recv_done in
      if Go.is_err (Symlink.err result) then Go.Return err
      else wait_done err n'
  end.

(** Lines 27 to 64 of [Build]: the editor, the lock file, the startup
    files and the opt directory. What goes on to the rest is the
    repository list, [vimExePath] and the variable [err]. *)
Definition prepare : Go.M World Go.error (list Repos * string * Go.error) :=
  let '(_, err) := VimExecutable h 0 in
  let* _ := Go.return_if_err err in
  match lockjson_Read h with
  | inl e => Go.Return (Go.errors_New ("could not read lock.json: " +:+ e))
  | inr lockJSON =>
      match getCurrentProfileAndReposList h lockJSON with
      | inl e => Go.Return (Some e)
      | inr (profile, reposList) =>
          let vimDir := VimDir h in
          let vimrcPath := Filepath.Join vimDir (Vimrc h) in
          let gvimrcPath := Filepath.Join vimDir (Gvimrc h) in
          let* err := on_fs (fun f =>
                        let '(e, f') := installVimrcAndGvimrc h (CurrentProfileName lockJSON)
                                          vimrcPath gvimrcPath
                                          (UseVimrc profile) (UseGvimrc profile) f in
                        (Go.Cont e, f')) in
          let* _ := Go.return_if_err err in
          let optDir := VimVoltOptDir h in
          let* _ := on_fs (os_MkdirAll (MkdirAll_err h optDir) optDir) in
          let* there := on_fs (pathutil_Exists optDir) in
          let* _ := Go.when (negb there)
                      (Go.Return (Go.errors_New ("could not create " +:+ optDir))) in
          let '(vimExePath, err) := VimExecutable h 1 in
          let* _ := Go.return_if_err err in
          Go.ret (reposList, vimExePath, err)
      end
  end.

(** Lines 66 to 100 of [Build]: launch, collect, write the bundled
    configuration and the build information. *)
Definition install (reposList : list Repos) (vimExePath : string) (err : Go.error)
  : Go.M World Go.error Go.error :=
  let* _ := Go.modify (fun w =>
              mkWorld (fs w) [] (launched w) (wrote_buildInfo w)
                      (Go.Chan (schedule h) 0)) in
  let* _ := launch_loop reposList in
  let* _ := wait_done err (length reposList) in
  let '(content, merr) := GenerateBundlePlugconf h reposList in
  let* _ := Go.return_if_err merr in
  let conf := BundledPlugConf h in
  let* _ := on_fs (os_MkdirAll (MkdirAll_err h (Filepath.Dir conf))
                     (Filepath.Dir conf)) in
  let* err := on_fs (ioutil_WriteFile (WriteFile_err h conf) conf content) in
  let* _ := Go.return_if_err err in
  let* w := Go.get in
  let* _ := Go.put (mkWorld (fs w) (buildInfo w) (launched w) true (done_chan w)) in
  Go.Return (buildInfo_Write h (buildInfo w)).

(** [Build]. *)
Definition Build : Go.M World Go.error Go.error :=
  let* '(reposList, vimExePath, err) := prepare in
  install reposList vimExePath err.

(** The unit of work behind one turn of the launching loop. *)
Definition task_of (vimExePath : string) (repos : Repos) : Go.task actionReposResult :=
  Go.Async (sends (installRepos (FullReposPathOf h) (PackReposPathOf h) (PlainOpen h)
                     (GOOS h) (host h) (updateBareGitRepos h) repos vimExePath)).

(** The orders in which the results of a run can enter [done]. *)
Definition admissible (vimExePath : string) (reposList : list Repos) : Prop :=
  Go.arrival (map (task_of vimExePath) reposList) [] (schedule h).

End Builder.

(** The record of one repository in the build information. *)
Definition record_of (repos : Repos) : BuildRepos :=
  mkBuildRepos (LockJSON.Type_ repos) (LockJSON.Path repos) (LockJSON.Version repos).

(** The call that links [dst] to [src] on a host. *)
Definition link_call (GOOS src dst : string) : Call :=
  if String.eqb GOOS "windows" then Mklink dst src else OsSymlink src dst.

End Symlink.

(** ** Concrete hosts and inputs *)

Module Examples.
Import LockJSON FS.

Definition rcOf (profile name : string) : string :=
  "rc/" +:+ profile +:+ "/" +:+ name.

Definition fullPath (reposPath : string) : string := "repos/" +:+ reposPath.
Definition packPath (reposPath : string) : string := "opt/" +:+ encodeReposPath reposPath.

(** Four repositories: a git clone that is there, one that is not, a
    static directory, and one of a type that is neither. *)
Definition caw : Repos :=
  mkRepos "git" "github.com/tyru/caw.vim" "5a7a5c0e9fcf5e09b8bb2bd1a3b3a3c2d1e0f9a8".
Definition gone : Repos :=
  mkRepos "git" "github.com/tyru/gone.vim" "0123456789abcdef0123456789abcdef01234567".
Definition notes : Repos := mkRepos "static" "localhost/local/notes" EmptyString.
Definition odd : Repos := mkRepos "hg" "example.org/odd/repo" "tip".

Definition caw_tree : Git.Tree :=
  Git.mkTree [Git.mkFile "plugin/caw.vim" (inr 420%N) (inr "echo 1")] Go.nil.

Definition caw_repository (bare : bool) : Git.Repository :=
  Git.mkRepository
    (fun hash => if String.eqb hash (Version caw) then inr (Git.mkCommit "t1")
                 else inl "object not found")
    (fun hash => if String.eqb hash "t1" then inr caw_tree else inl "object not found")
    (inr bare).

Definition plainOpen (path : string) : string + Git.Repository :=
  if String.eqb path (fullPath (Path caw)) then inr (caw_repository false)
  else inl "repository does not exist".

Definition profile : Profile := mkProfile "default" [] true true.

Definition lockJSON (reposList : list Repos) : LockJSON :=
  mkLockJSON "default" "default" (fun _ => inr profile) (fun _ => inr reposList).

Definition user_fs : FS :=
  {[ "vim/vimrc" := File (list_byte_of_string "set nocompatible") ]}.

Definition source_fs : FS :=
  {[ "rc/default/vimrc.vim" := File (list_byte_of_string "syntax on") ]}.

(** A start directory left by an earlier build, and the profile's vimrc. *)
Definition old_tree : gmap string bytes :=
  {[ "github.com_tyru_old.vim/plugin/old.vim" := list_byte_of_string "echo 0" ]}.

Definition built_fs : FS :=
  <["vim/pack/volt/start" := Dir old_tree]> source_fs.

(** A disk on which nothing can be written. *)
Definition read_only (c : Worker.FsCall) : Go.error :=
  match c with
  | Worker.WriteFile _ _ _ => Go.errors_New "read-only file system"
  | Worker.MkdirAll _ _ => Go.errors_New "read-only file system"
  | Worker.CopyDir _ _ => Go.errors_New "read-only file system"
  end.

Definition obliging (c : Worker.FsCall) : Go.error := Go.nil.

(** A host of the full rebuild, by its repository list, what it answers to
    the rename and to the background deletion, and the order of arrival. *)
Definition rebuild_host (reposList : list Repos) (rename_err removeAll_err : Go.error)
    (schedule : list Worker.copyReposResult) : Rebuild.Host :=
  Rebuild.mkHost "vim" "vim/pack/volt/start" rcOf fullPath []
    (inr (lockJSON reposList)) plainOpen obliging "3w5e11264sgsg"
    rename_err Go.nil removeAll_err schedule.

Definition world (f : FS) : Rebuild.World := Rebuild.mkWorld f [] (Go.Chan [] 0).

Definition gone_failed : Worker.copyReposResult :=
  Worker.mkResult
    (Go.errors_New "failed to open repository: repository does not exist") gone.

Definition caw_copied : Worker.copyReposResult := Worker.mkResult Go.nil caw.

(** The rename of the start directory is refused. *)
Definition rename_refused : Rebuild.Host :=
  rebuild_host [caw] (Go.errors_New "permission denied") Go.nil [caw_copied].

(** A list with a repository of an unknown type, whose result arrives
    before the worker's. *)
Definition odd_list : Rebuild.Host :=
  rebuild_host [caw; odd] Go.nil Go.nil [Rebuild.invalid_type odd; caw_copied].

(** One clone is missing and the old directory cannot be deleted. *)
Definition stuck_delete : Rebuild.Host :=
  rebuild_host [gone; caw] Go.nil (Go.errors_New "directory not empty")
    [gone_failed; caw_copied].

(** A host of the link-strategy build. *)
Definition symlink_ok (c : Symlink.Call) : Go.error := Go.nil.

Definition symlink_host (reposList : list Repos)
    (schedule : list Symlink.actionReposResult) : Symlink.Host :=
  Symlink.mkHost (fun _ => ("/usr/bin/vim", Go.nil)) "vim" "vimrc" "gvimrc" "opt"
    "vim/pack/volt/opt/system/plugin/bundled_plugconf.vim" fullPath packPath
    (inr (lockJSON reposList)) (fun _ => inr (profile, reposList))
    (fun _ _ _ _ _ f => (Go.nil, f))
    (fun _ => (list_byte_of_string "let g:loaded = 1", Go.nil))
    (fun _ => Go.nil) plainOpen "linux" symlink_ok
    (fun _ _ r _ => Symlink.mkResult Go.nil (Some r))
    (fun _ => Go.nil) (fun _ => Go.nil) schedule.

(** The same host with a configuration script that does not parse. *)
Definition broken_plugconf (reposList : list Repos)
    (schedule : list Symlink.actionReposResult) : Symlink.Host :=
  Symlink.mkHost (fun _ => ("/usr/bin/vim", Go.nil)) "vim" "vimrc" "gvimrc" "opt"
    "vim/pack/volt/opt/system/plugin/bundled_plugconf.vim" fullPath packPath
    (inr (lockJSON reposList)) (fun _ => inr (profile, reposList))
    (fun _ _ _ _ _ f => (Go.nil, f))
    (fun _ => ([], Go.errors_New "parse error in plugconf"))
    (fun _ => Go.nil) plainOpen "linux" symlink_ok
    (fun _ _ r _ => Symlink.mkResult Go.nil (Some r))
    (fun _ => Go.nil) (fun _ => Go.nil) schedule.



(** An extraction that fails. *)
Definition extraction_fails (src dst : string) (r : Repos) (vimExePath : string)
  : Symlink.actionReposResult :=
  Symlink.mkResult (Go.errors_New "failed to extract") (Some r).

Definition no_links (c : Symlink.Call) : Go.error :=
  match c with
  | Symlink.Helptags _ _ => Go.nil
  | _ => Go.errors_New "operation not permitted"
  end.

Definition symlink_world (f : FS) : Symlink.World :=
  Symlink.mkWorld f [] [] false (Go.Chan [] 0).

Definition gone_link_failed : Symlink.actionReposResult :=
  Symlink.mkResult
    (Go.errors_New
       ("repository " +:+ Symlink.fmt_q "repos/github.com/tyru/gone.vim"
          +:+ ": repository does not exist")) None.

(** The user keeps a vimrc of their own. *)
Definition users_vimrc : Rebuild.Host :=
  Rebuild.mkHost "vim" "vim/pack/volt/start" rcOf fullPath ["vim/vimrc"]
    (inr (lockJSON [caw])) plainOpen obliging "3w5e11264sgsg"
    Go.nil Go.nil Go.nil [caw_copied].


(** More clones: one whose second file has a mode that does not convert,
    one whose commit points to a tree that is not there, and a lock entry
    for a commit the clone of [caw] does not have. *)
Definition half : Repos :=
  mkRepos "git" "github.com/tyru/half.vim" "1111111111111111111111111111111111111111".
Definition treeless : Repos :=
  mkRepos "git" "github.com/tyru/treeless.vim" "2222222222222222222222222222222222222222".

Definition half_good : Git.File := Git.mkFile "plugin/half.vim" (inr 493%N) (inr "echo 2").
Definition half_bad : Git.File := Git.mkFile "doc/half.txt" (inl "malformed mode") (inr "help").
Definition half_rest : Git.File := Git.mkFile "README" (inr 420%N) (inr "read me").

Definition half_tree : Git.Tree := Git.mkTree [half_good; half_bad; half_rest] Go.nil.

Definition plainOpen_more (path : string) : string + Git.Repository :=
  if String.eqb path (fullPath (Path half)) then
    inr (Git.mkRepository (fun _ => inr (Git.mkCommit "t2")) (fun _ => inr half_tree)
           (inr false))
  else if String.eqb path (fullPath (Path treeless)) then
    inr (Git.mkRepository (fun _ => inr (Git.mkCommit "t3"))
           (fun _ => inl "object not found") (inr false))
  else plainOpen path.

Definition caw_linked : Symlink.actionReposResult := Symlink.mkResult Go.nil (Some caw).

(** The link-strategy build of one repository whose clone is missing. *)
Definition lost_clone : Symlink.Host := symlink_host [gone] [gone_link_failed].

(** Two repositories, the first of them missing, in both builders. *)
Definition lost_and_found : Symlink.Host :=
  symlink_host [gone; caw] [gone_link_failed; caw_linked].

Definition lost_and_found_rebuild : Rebuild.Host :=
  rebuild_host [gone; caw] Go.nil Go.nil [gone_failed; caw_copied].

(** Two repositories that are both there. *)
Definition static_and_git : Rebuild.Host :=
  rebuild_host [notes; caw] Go.nil Go.nil [caw_copied; Worker.mkResult Go.nil notes].

Definition twice_caw : Symlink.Host :=
  symlink_host [caw; caw] [caw_linked; caw_linked].

End Examples.

(** * Properties *)

(** ** The statement monad *)

Module GoFacts.
Import Go.

Lemma run_bind_cont {S R A} (m : M S R A) (k : A -> M S R R) s a s' :
  m s = (Cont a, s') -> run (bind m k) s = run (k a) s'.
Proof. intros Hm. unfold run, bind. rewrite Hm. reflexivity. Qed.

Lemma run_bind_ret {S R A} (m : M S R A) (k : A -> M S R R) s r s' :
  m s = (Ret r, s') -> run (bind m k) s = (Returned r, s').
Proof. intros Hm. unfold run, bind. rewrite Hm. reflexivity. Qed.

Lemma bind_cont {S R A B} (m : M S R A) (k : A -> M S R B) s a s' :
  m s = (Cont a, s') -> bind m k s = k a s'.
Proof. intros Hm. unfold bind. rewrite Hm. reflexivity. Qed.

Lemma bind_ret {S R A B} (m : M S R A) (k : A -> M S R B) s r s' :
  m s = (Ret r, s') -> bind m k s = (Ret r, s').
Proof. intros Hm. unfold bind. rewrite Hm. reflexivity. Qed.

Lemma call_returned {S R R'} (body : M S R' R') s r s' :
  run body s = (Returned r, s') -> call (R := R) body s = (Cont r, s').
Proof.
  unfold run, call. destruct (body s) as [[r0|r0|] s0]; intros H; inversion H; reflexivity.
Qed.

(** Every order of arrival is a rearrangement of what the goroutines
    running and the units of work still to launch send. *)
Lemma arrival_Permutation {A} (ts : list (task A)) running q :
  arrival ts running q ->
  Permutation q (concat running ++ concat (map task_sends ts)).
Proof.
  induction 1 as [|ts run1 run2 q _ IH|a ts running q _ IH
                  |sends ts running q _ IH|a rest ts run1 run2 q _ IH]; simpl.
  - constructor.
  - rewrite concat_app in *. simpl. exact IH.
  - rewrite IH. apply Permutation_middle.
  - rewrite IH. simpl. rewrite <- app_assoc. apply Permutation_app_swap_app.
  - rewrite concat_app in *. simpl in *.
    rewrite <- !app_assoc in *. simpl in *. rewrite <- !app_assoc in *.
    rewrite IH. apply Permutation_middle.
Qed.

Lemma arrival_at_once {A} (ts : list (task A)) running sends q :
  arrival ts running q -> arrival ts (sends :: running) (sends ++ q).
Proof.
  intros H. induction sends as [|a sends IH]; simpl.
  - apply (arrival_exit ts [] running). exact H.
  - apply (arrival_send a sends ts [] running). exact IH.
Qed.

(** Each goroutine sending all it has as soon as it is launched is one of
    the orders. *)
Lemma arrival_in_order {A} (ts : list (task A)) :
  arrival ts [] (concat (map task_sends ts)).
Proof.
  induction ts as [|[a|sends] ts IH]; simpl.
  - constructor.
  - apply arrival_sync. exact IH.
  - apply arrival_go. apply arrival_at_once. exact IH.
Qed.

End GoFacts.

(** ** The escaping of repository paths *)

Module EncodeFacts.

Lemma encodeReposPath_cons c rest :
  encodeReposPath (String c rest)
  = if Ascii.eqb c "_" then "__" +:+ encodeReposPath rest
    else if Ascii.eqb c "/" then "_" +:+ encodeReposPath rest
    else String c (encodeReposPath rest).
Proof.
  unfold encodeReposPath. cbn [Strings.Replace Strings.lookup].
  rewrite (Ascii.eqb_sym "_" c), (Ascii.eqb_sym "/" c).
  destruct (Ascii.eqb c "_"); [reflexivity|].
  destruct (Ascii.eqb c "/"); reflexivity.
Qed.

(** An encoding starts with an underscore only for a path that starts with
    an underscore or a slash. *)
Lemma encodeReposPath_head c rest d tail :
  encodeReposPath (String c rest) = String d tail ->
  d = "_"%char -> c = "_"%char \/ c = "/"%char.
Proof.
  rewrite encodeReposPath_cons.
  destruct (Ascii.eqb_spec c "_") as [->|_]; [left; reflexivity|].
  destruct (Ascii.eqb_spec c "/") as [->|_]; [right; reflexivity|].
  intros H ->. inversion H. subst c.
  destruct (Ascii.eqb_spec "_" "_") as [_|N]; [|contradiction].
  left. reflexivity.
Qed.

Lemma separated_tail c rest : separated (String c rest) = true -> separated rest = true.
Proof.
  simpl. destruct rest as [|d rest']; [reflexivity|].
  intros H. apply andb_true_iff in H. apply H.
Qed.

Lemma separated_slash rest tail :
  separated (String "/" rest) = true ->
  encodeReposPath rest <> String "_" tail.
Proof.
  destruct rest as [|d rest']; [discriminate|].
  intros Hsep Henc.
  destruct (encodeReposPath_head d rest' "_" tail Henc eq_refl) as [-> | ->];
    simpl in Hsep; discriminate Hsep.
Qed.

(** X4: Where no slash is directly followed by an underscore or a slash, the
    escaping tells paths apart. *)
Lemma encodeReposPath_injective_on_separated p1 :
  forall p2,
    separated p1 = true -> separated p2 = true ->
    encodeReposPath p1 = encodeReposPath p2 -> p1 = p2.
Proof.
  induction p1 as [|c1 r1 IH]; intros [|c2 r2] Hs1 Hs2 Henc.
  - reflexivity.
  - rewrite encodeReposPath_cons in Henc.
    destruct (Ascii.eqb c2 "_"); [discriminate|].
    destruct (Ascii.eqb c2 "/"); discriminate.
  - rewrite encodeReposPath_cons in Henc.
    destruct (Ascii.eqb c1 "_"); [discriminate|].
    destruct (Ascii.eqb c1 "/"); discriminate.
  - pose proof (separated_tail _ _ Hs1) as Ht1.
    pose proof (separated_tail _ _ Hs2) as Ht2.
    rewrite !encodeReposPath_cons in Henc.
    destruct (Ascii.eqb_spec c1 "_") as [->|N1];
      [|destruct (Ascii.eqb_spec c1 "/") as [->|N1']];
      (destruct (Ascii.eqb_spec c2 "_") as [->|N2];
       [|destruct (Ascii.eqb_spec c2 "/") as [->|N2']]);
      simpl in Henc.
    + inversion Henc as [Heq]. f_equal. apply IH; assumption.
    + inversion Henc as [Heq]. exfalso.
      exact (separated_slash r2 _ Hs2 (eq_sym Heq)).
    + inversion Henc. subst c2. contradiction.
    + inversion Henc as [Heq]. exfalso.
      exact (separated_slash r1 _ Hs1 Heq).
    + inversion Henc as [Heq]. f_equal. apply IH; assumption.
    + inversion Henc. subst c2. contradiction.
    + inversion Henc. subst c1. contradiction.
    + inversion Henc. subst c1. contradiction.
    + inversion Henc as [[Hc Heq]]. f_equal. apply IH; assumption.
Qed.

(** X1: The escaped name is one path element: it holds no separator, whatever
    the repository path. *)
Theorem encodeReposPath_has_no_separator (reposPath : string) :
  ~ In "/"%char (list_ascii_of_string (encodeReposPath reposPath)).
Proof.
  induction reposPath as [|c rest IH]; [intros []|].
  rewrite encodeReposPath_cons.
  destruct (Ascii.eqb_spec c "_") as [->|N1].
  - simpl. intros [H|[H|H]]; [discriminate H|discriminate H|exact (IH H)].
  - destruct (Ascii.eqb_spec c "/") as [->|N2].
    + simpl. intros [H|H]; [discriminate H|exact (IH H)].
    + simpl. intros [H|H]; [exact (N2 H)|exact (IH H)].
Qed.

(** X2: The escaping works byte by byte: the name of a concatenation is the
    concatenation of the names. *)
Theorem encodeReposPath_app (p q : string) :
  encodeReposPath (p +:+ q) = encodeReposPath p +:+ encodeReposPath q.
Proof.
  induction p as [|c rest IH]; [reflexivity|].
  change (String c rest +:+ q) with (String c (rest +:+ q)).
  rewrite !encodeReposPath_cons, IH.
  destruct (Ascii.eqb c "_"); [reflexivity|].
  destruct (Ascii.eqb c "/"); reflexivity.
Qed.

(** X3: The escaped name is never shorter than the path: one byte more for
    every underscore. *)
Theorem encodeReposPath_length (reposPath : string) :
  String.length (encodeReposPath reposPath)
  = String.length reposPath
    + List.length (List.filter (Ascii.eqb "_") (list_ascii_of_string reposPath)).
Proof.
  induction reposPath as [|c rest IH]; [reflexivity|].
  rewrite encodeReposPath_cons.
  cbn [list_ascii_of_string List.filter]. rewrite (Ascii.eqb_sym "_" c).
  destruct (Ascii.eqb c "_").
  - change ("__" +:+ encodeReposPath rest)
      with (String "_" (String "_" (encodeReposPath rest))).
    cbn [String.length List.length]. rewrite IH. lia.
  - destruct (Ascii.eqb c "/").
    + change ("_" +:+ encodeReposPath rest) with (String "_" (encodeReposPath rest)).
      cbn [String.length]. rewrite IH. reflexivity.
    + cbn [String.length]. rewrite IH. reflexivity.
Qed.

Lemma encodeReposPath_injective_on_separated_witness :
  "github.com/tyru/caw.vim" = "github.com/tyru/caw.vim".
Proof.
  apply (encodeReposPath_injective_on_separated "github.com/tyru/caw.vim"
           "github.com/tyru/caw.vim"); reflexivity.
Defined.

End EncodeFacts.

(** ** The startup-file guard and installer *)

Module RCFacts.
Import Go FS RC GoFacts Examples.

Lemma magic_length : length magic = String.length magicComment.
Proof. reflexivity. Qed.

Lemma magic_cons : exists b rest, magic = b :: rest.
Proof. eexists _, _. reflexivity. Qed.

Lemma compare_loop_spec dst (mg rd : bytes) idx (fs : FS) :
  compare_loop dst mg rd idx fs =
  (if forallb (fun i => Byte.eqb (nth i mg x00) (nth i rd x00)) idx
   then Cont tt else Ret (no_magic dst), fs).
Proof.
  induction idx as [|i idx IH]; simpl; [reflexivity|].
  unfold bind, when.
  destruct (Byte.eqb (nth i mg x00) (nth i rd x00)); simpl; [apply IH | reflexivity].
Qed.

Lemma forallb_nth_eq (mg rd : bytes) :
  length rd = length mg ->
  forallb (fun i => Byte.eqb (nth i mg x00) (nth i rd x00)) (seq 0 (length mg)) = true
  <-> rd = mg.
Proof.
  intros Hlen. rewrite forallb_forall. split.
  - intros H. apply nth_ext with (d := x00) (d' := x00); [exact Hlen|].
    intros n Hn. symmetry. apply Byte.byte_dec_bl. apply H.
    apply in_seq. lia.
  - intros -> i _. apply Byte.byte_dec_lb. reflexivity.
Qed.

Lemma File_Read_file {R} (fs : FS) reader content b buf :
  fs !! reader = Some (File content) ->
  File_Read (R := R) reader (b :: buf) fs =
  (Cont (match content with
         | [] => (0, errors_New "EOF", b :: buf)
         | _ => let n := Nat.min (length (b :: buf)) (length content) in
                (n, nil, take n content ++ drop n (b :: buf))
         end), fs).
Proof.
  intros H. unfold File_Read, gets. rewrite H. destruct content; reflexivity.
Qed.

(** What the guard answers on a regular file. *)
Lemma shouldHaveMagicComment_file (fs : FS) dst content :
  fs !! dst = Some (File content) ->
  run (shouldHaveMagicComment dst) fs =
  (Returned (if decide (take (length magic) content = magic) then nil else no_magic dst), fs).
Proof.
  intros Hdst. unfold shouldHaveMagicComment.
  erewrite run_bind_cont; [|unfold os_Open, gets; rewrite Hdst; reflexivity].
  cbv beta iota. erewrite run_bind_cont; [|reflexivity].
  fold magic. destruct magic_cons as (b & rest & Hm).
  assert (Hrep : replicate (length magic) x00 = x00 :: replicate (length rest) x00)
    by (rewrite Hm; reflexivity).
  rewrite Hrep.
  erewrite run_bind_cont; [|apply File_Read_file; exact Hdst].
  assert (Hlen : length (x00 :: replicate (length rest) x00) = length magic)
    by (rewrite Hm; simpl; rewrite length_replicate; reflexivity).
  rewrite <- magic_length.
  destruct content as [|c content'].
  { cbv beta iota. erewrite run_bind_ret; [|reflexivity].
    destruct (decide _) as [E|_]; [|reflexivity].
    rewrite Hm in E. discriminate E. }
  set (content := c :: content') in *.
  cbv beta iota zeta. rewrite Hlen.
  destruct (Nat.ltb_spec (Nat.min (length magic) (length content)) (length magic)) as [Hlt|Hge].
  { erewrite run_bind_ret; [|reflexivity].
    destruct (decide _) as [E|_]; [|reflexivity].
    apply (f_equal length) in E. rewrite length_take in E. lia. }
  assert (Hmin : Nat.min (length magic) (length content) = length magic) by lia.
  rewrite Hmin.
  erewrite run_bind_cont; [|reflexivity].
  assert (Hdrop : drop (length magic) (x00 :: replicate (length rest) x00) = [])
    by (apply drop_ge; lia).
  rewrite Hdrop, app_nil_r.
  unfold run, bind. rewrite compare_loop_spec.
  pose proof (forallb_nth_eq magic (take (length magic) content)) as Hforall.
  rewrite length_take in Hforall. specialize (Hforall ltac:(lia)).
  destruct (forallb _ _).
  - destruct (decide _) as [_|N]; [reflexivity|]. exfalso. apply N, Hforall. reflexivity.
  - destruct (decide _) as [E|_]; [|reflexivity]. apply Hforall in E. discriminate E.
Qed.

(** C5: installing onto an existing destination file whose first bytes are
    not the marker line (a file shorter than the marker included) returns an
    error, and the file system, the destination with it, is exactly as it
    was. *)
Theorem installRCFile_refuses_unmarked
    (RCFileOf : string -> string -> string) profileName srcRCFileName dst
    (fs : FS) content :
  fs !! dst = Some (File content) ->
  take (length (list_byte_of_string magicComment)) content
    <> list_byte_of_string magicComment ->
  run (installRCFile RCFileOf profileName srcRCFileName dst) fs
  = (Returned (Some ("'" +:+ dst +:+ "' does not have magic comment")), fs).
Proof.
  intros Hdst Hne. unfold installRCFile.
  erewrite run_bind_cont;
    [|unfold pathutil_Exists, gets, Exists; rewrite Hdst; reflexivity].
  apply run_bind_ret. unfold when.
  erewrite bind_cont;
    [|apply call_returned; apply shouldHaveMagicComment_file; exact Hdst].
  fold magic in Hne. destruct (decide _) as [E|_]; [contradiction|reflexivity].
Qed.

Lemma installRCFile_refuses_unmarked_witness :
  run (installRCFile rcOf "default" "vimrc.vim" "vim/vimrc") user_fs
  = (Returned (Some "'vim/vimrc' does not have magic comment"), user_fs).
Proof.
  apply (installRCFile_refuses_unmarked rcOf "default" "vimrc.vim" "vim/vimrc"
           user_fs (list_byte_of_string "set nocompatible")).
  - reflexivity.
  - vm_compute. discriminate.
Defined.



(** *** More on the guard and the installer *)

Lemma shouldHaveMagicComment_missing (fs : FS) dst :
  fs !! dst = None ->
  run (shouldHaveMagicComment dst) fs
  = (Returned (Some ("open " +:+ dst +:+ ": no such file or directory")), fs).
Proof.
  intros Hdst. unfold shouldHaveMagicComment.
  erewrite run_bind_cont; [|unfold os_Open, gets; rewrite Hdst; reflexivity].
  reflexivity.
Qed.

Lemma shouldHaveMagicComment_dir (fs : FS) dst tree :
  fs !! dst = Some (Dir tree) ->
  run (shouldHaveMagicComment dst) fs = (Returned (no_magic dst), fs).
Proof.
  intros Hdst. unfold shouldHaveMagicComment.
  erewrite run_bind_cont; [|unfold os_Open, gets; rewrite Hdst; reflexivity].
  cbv beta iota. erewrite run_bind_cont; [|reflexivity].
  erewrite run_bind_cont; [|unfold File_Read, gets; rewrite Hdst; reflexivity].
  reflexivity.
Qed.

Lemma take_magic_prefix (content : bytes) :
  take (length magic) content = magic <-> exists rest, content = magic ++ rest.
Proof.
  split.
  - intros H. exists (drop (length magic) content).
    rewrite <- H at 1. symmetry. apply take_drop.
  - intros [rest ->]. rewrite take_app_length. reflexivity.
Qed.

(** X5: The guard passes a regular file exactly when the file starts with the
    marker line, and it changes nothing. *)
Theorem guard_passes_exactly_marked_files (fs : FS) dst content :
  fs !! dst = Some (File content) ->
  snd (run (shouldHaveMagicComment dst) fs) = fs
  /\ (fst (run (shouldHaveMagicComment dst) fs) = Returned nil
      <-> exists rest, content = list_byte_of_string magicComment ++ rest).
Proof.
  intros Hdst. rewrite (shouldHaveMagicComment_file fs dst content Hdst).
  split; [reflexivity|]. simpl. fold magic. rewrite <- take_magic_prefix.
  destruct (decide _) as [E|N]; split; intros H; try assumption; try reflexivity.
  - discriminate H.
  - contradiction.
Qed.

Lemma guard_passes_exactly_marked_files_witness :
  snd (run (shouldHaveMagicComment "vim/vimrc") user_fs) = user_fs
  /\ (fst (run (shouldHaveMagicComment "vim/vimrc") user_fs) = Returned nil
      <-> exists rest, list_byte_of_string "set nocompatible"
                       = list_byte_of_string magicComment ++ rest).
Proof.
  apply (guard_passes_exactly_marked_files user_fs "vim/vimrc"
           (list_byte_of_string "set nocompatible")).
  reflexivity.
Defined.

Lemma shouldHaveMagicComment_pure (fs : FS) dst :
  exists e, run (shouldHaveMagicComment dst) fs = (Returned e, fs).
Proof.
  destruct (fs !! dst) as [[content|tree]|] eqn:Hdst; eexists.
  - apply (shouldHaveMagicComment_file fs dst content Hdst).
  - apply (shouldHaveMagicComment_dir fs dst tree Hdst).
  - apply (shouldHaveMagicComment_missing fs dst Hdst).
Qed.

(** X6: The guard reads and never writes: on every path of every file system
    it returns and leaves the file system as it was; and on a path that
    is missing or a directory what it returns is an error. *)
Theorem guard_is_read_only (fs : FS) dst :
  (exists e, run (shouldHaveMagicComment dst) fs = (Returned e, fs))
  /\ ((forall content, fs !! dst <> Some (File content)) ->
      exists msg, run (shouldHaveMagicComment dst) fs = (Returned (Some msg), fs)).
Proof.
  destruct (fs !! dst) as [[content|tree]|] eqn:Hdst.
  - split.
    + eexists. apply (shouldHaveMagicComment_file fs dst content Hdst).
    + intros H. exfalso. apply (H content). reflexivity.
  - split; intros; eexists; apply (shouldHaveMagicComment_dir fs dst tree Hdst).
  - split; intros; eexists; apply (shouldHaveMagicComment_missing fs dst Hdst).
Qed.

Lemma guard_is_read_only_witness :
  (exists e, run (shouldHaveMagicComment "vim/vimrc") source_fs = (Returned e, source_fs))
  /\ exists msg,
       run (shouldHaveMagicComment "vim/vimrc") source_fs = (Returned (Some msg), source_fs).
Proof.
  destruct (guard_is_read_only source_fs "vim/vimrc") as [Hpure Hbad].
  split; [exact Hpure|]. apply Hbad. intros content. discriminate.
Defined.

Section InstallerFacts.
Variable RCFileOf : string -> string -> string.
Variables profileName srcRCFileName dst : string.

Let src := RCFileOf profileName srcRCFileName.

(** What happens to the profile's file once the destination is out of the
    way. *)
Lemma copy_after_remove (fs : FS) :
  fs !! dst = None ->
  run (let* exists_src := pathutil_Exists src in
       let* _ := when (negb exists_src) (Return nil) in
       let* err := call (copyFileWithMagicComment src dst) in
       Return err) fs
  = match fs !! src with
    | None => (Returned nil, fs)
    | Some (File data) => (Returned nil, <[dst := File (magic ++ data)]> fs)
    | Some (Dir _) =>
        (Returned (Some ("read " +:+ src +:+ ": is a directory")),
         <[dst := File magic]> fs)
    end.
Proof.
  intros Hdst. destruct (fs !! src) as [[data|tree]|] eqn:Hsrc.
  - assert (Hne : dst <> src) by (intros E; rewrite E in Hdst; congruence).
    erewrite run_bind_cont;
      [|unfold pathutil_Exists, gets, Exists; rewrite Hsrc; reflexivity].
    erewrite run_bind_cont; [|reflexivity].
    erewrite run_bind_cont; [reflexivity|].
    apply call_returned. unfold copyFileWithMagicComment.
    erewrite run_bind_cont; [|unfold os_Open, gets; rewrite Hsrc; reflexivity].
    cbv beta iota. erewrite run_bind_cont; [|reflexivity].
    erewrite run_bind_cont; [|unfold os_Create; rewrite Hdst; reflexivity].
    cbv beta iota. erewrite run_bind_cont; [|reflexivity].
    erewrite run_bind_cont;
      [|unfold File_Write; rewrite lookup_insert_eq; reflexivity].
    cbv beta iota. erewrite run_bind_cont; [|reflexivity].
    erewrite run_bind_cont;
      [|unfold io_Copy, File_Write;
        rewrite lookup_insert_ne by exact Hne;
        rewrite lookup_insert_ne by exact Hne;
        rewrite Hsrc, lookup_insert_eq; reflexivity].
    cbv beta iota. unfold run, Return.
    rewrite !insert_insert_eq. reflexivity.
  - assert (Hne : dst <> src) by (intros E; rewrite E in Hdst; congruence).
    erewrite run_bind_cont;
      [|unfold pathutil_Exists, gets, Exists; rewrite Hsrc; reflexivity].
    erewrite run_bind_cont; [|reflexivity].
    erewrite run_bind_cont; [reflexivity|].
    apply call_returned. unfold copyFileWithMagicComment.
    erewrite run_bind_cont; [|unfold os_Open, gets; rewrite Hsrc; reflexivity].
    cbv beta iota. erewrite run_bind_cont; [|reflexivity].
    erewrite run_bind_cont; [|unfold os_Create; rewrite Hdst; reflexivity].
    cbv beta iota. erewrite run_bind_cont; [|reflexivity].
    erewrite run_bind_cont;
      [|unfold File_Write; rewrite lookup_insert_eq; reflexivity].
    cbv beta iota. erewrite run_bind_cont; [|reflexivity].
    erewrite run_bind_cont;
      [|unfold io_Copy;
        rewrite lookup_insert_ne by exact Hne;
        rewrite lookup_insert_ne by exact Hne;
        rewrite Hsrc; reflexivity].
    cbv beta iota. unfold run, Return.
    rewrite !insert_insert_eq. reflexivity.
  - erewrite run_bind_cont;
      [|unfold pathutil_Exists, gets, Exists; rewrite Hsrc; reflexivity].
    apply run_bind_ret. reflexivity.
Qed.

(** The installer on a destination it may write: one that is missing or
    one that carries the marker. *)
Lemma installRCFile_writable (fs : FS) :
  fs !! dst = None \/ (exists old, fs !! dst = Some (File (magic ++ old))) ->
  run (installRCFile RCFileOf profileName srcRCFileName dst) fs
  = match delete dst fs !! src with
    | None => (Returned nil, delete dst fs)
    | Some (File data) => (Returned nil, <[dst := File (magic ++ data)]> fs)
    | Some (Dir _) =>
        (Returned (Some ("read " +:+ src +:+ ": is a directory")),
         <[dst := File magic]> fs)
    end.
Proof.
  intros Hdst.
  assert (Hgone : (delete dst fs : FS) !! dst = None) by apply lookup_delete_eq.
  pose proof (copy_after_remove (delete dst fs) Hgone) as Htail.
  assert (Hsame :
    match delete dst fs !! src with
    | None => (Returned nil, delete dst fs)
    | Some (File data) => (Returned nil, <[dst := File (magic ++ data)]> fs)
    | Some (Dir _) =>
        (Returned (Some ("read " +:+ src +:+ ": is a directory")),
         <[dst := File magic]> fs)
    end
    = match delete dst fs !! src with
      | None => (Returned nil, delete dst fs)
      | Some (File data) =>
          (Returned nil, <[dst := File (magic ++ data)]> (delete dst fs))
      | Some (Dir _) =>
          (Returned (Some ("read " +:+ src +:+ ": is a directory")),
           <[dst := File magic]> (delete dst fs))
      end).
  { destruct (delete dst fs !! src) as [[data|tree]|];
      rewrite ?insert_delete_eq; reflexivity. }
  rewrite Hsame, <- Htail. clear Hsame Htail. unfold installRCFile. fold src.
  destruct Hdst as [Hdst|[old Hdst]].
  - erewrite run_bind_cont;
      [|unfold pathutil_Exists, gets, Exists; rewrite Hdst; reflexivity].
    erewrite run_bind_cont; [|reflexivity].
    erewrite run_bind_cont; [|unfold os_Remove; rewrite Hdst; reflexivity].
    rewrite (delete_id fs dst Hdst).
    erewrite run_bind_cont;
      [|unfold pathutil_Exists, gets, Exists; rewrite Hdst; reflexivity].
    erewrite run_bind_cont; [|reflexivity]. reflexivity.
  - erewrite run_bind_cont;
      [|unfold pathutil_Exists, gets, Exists; rewrite Hdst; reflexivity].
    erewrite run_bind_cont.
    2:{ unfold when.
        erewrite bind_cont;
          [|apply call_returned; apply shouldHaveMagicComment_file; exact Hdst].
        destruct (decide _) as [_|N]; [reflexivity|].
        exfalso. apply N. apply take_magic_prefix. exists old. reflexivity. }
    erewrite run_bind_cont; [|unfold os_Remove; rewrite Hdst; reflexivity].
    erewrite run_bind_cont;
      [|unfold pathutil_Exists, gets, Exists; rewrite Hgone; reflexivity].
    erewrite run_bind_cont; [|reflexivity]. reflexivity.
Qed.

(** The installer on a destination the guard refuses. *)
Lemma installRCFile_refused (fs : FS) node e :
  fs !! dst = Some node ->
  run (shouldHaveMagicComment dst) fs = (Returned (Some e), fs) ->
  run (installRCFile RCFileOf profileName srcRCFileName dst) fs = (Returned (Some e), fs).
Proof.
  intros Hdst Hguard. unfold installRCFile.
  erewrite run_bind_cont;
    [|unfold pathutil_Exists, gets, Exists; rewrite Hdst; reflexivity].
  apply run_bind_ret. unfold when.
  erewrite bind_cont; [|apply call_returned; exact Hguard]. reflexivity.
Qed.



(** X9: Whatever it meets, the installer returns, and it leaves every path
    other than the destination as it was, the profile's file among them. *)
Theorem installRCFile_touches_only_destination (fs : FS) path :
  path <> dst ->
  (exists out, fst (run (installRCFile RCFileOf profileName srcRCFileName dst) fs)
               = Returned out)
  /\ snd (run (installRCFile RCFileOf profileName srcRCFileName dst) fs) !! path
     = fs !! path.
Proof.
  intros Hpath.
  assert (Hwritable :
    fs !! dst = None \/ (exists old, fs !! dst = Some (File (magic ++ old))) ->
    (exists out, fst (run (installRCFile RCFileOf profileName srcRCFileName dst) fs)
                 = Returned out)
    /\ snd (run (installRCFile RCFileOf profileName srcRCFileName dst) fs) !! path
       = fs !! path).
  { intros Hw. rewrite (installRCFile_writable fs Hw).
    destruct (delete dst fs !! src) as [[data|tree]|]; simpl;
      (split; [eexists; reflexivity|]).
    - apply lookup_insert_ne. congruence.
    - apply lookup_insert_ne. congruence.
    - apply lookup_delete_ne. congruence. }
  destruct (fs !! dst) as [[content|tree]|] eqn:Hdst.
  - destruct (decide (take (length magic) content = magic)) as [E|N].
    + apply Hwritable. right. apply take_magic_prefix in E. destruct E as [rest ->].
      exists rest. reflexivity.
    + assert (Hguard : run (shouldHaveMagicComment dst) fs
                       = (Returned (no_magic dst), fs)).
      { rewrite (shouldHaveMagicComment_file fs dst content Hdst).
        destruct (decide _); [contradiction|reflexivity]. }
      rewrite (installRCFile_refused fs (File content) _ Hdst Hguard).
      split; [eexists; reflexivity|reflexivity].
  - rewrite (installRCFile_refused fs (Dir tree) _ Hdst
               (shouldHaveMagicComment_dir fs dst tree Hdst)).
    split; [eexists; reflexivity|reflexivity].
  - apply Hwritable. left. reflexivity.
Qed.

End InstallerFacts.



Lemma installRCFile_touches_only_destination_witness :
  (exists out, fst (run (installRCFile rcOf "default" "vimrc.vim" "vim/vimrc") source_fs)
               = Returned out)
  /\ snd (run (installRCFile rcOf "default" "vimrc.vim" "vim/vimrc") source_fs)
       !! "rc/default/vimrc.vim"
     = source_fs !! "rc/default/vimrc.vim".
Proof.
  apply (installRCFile_touches_only_destination rcOf "default" "vimrc.vim" "vim/vimrc"
           source_fs "rc/default/vimrc.vim").
  discriminate.
Defined.

End RCFacts.

(** ** Paths *)

Module PathFacts.




Lemma length_append (a b : string) :
  String.length (a +:+ b) = String.length a + String.length b.
Proof.
  induction a as [|x a IH]; [reflexivity|].
  change (S (String.length (a +:+ b)) = S (String.length a + String.length b)).
  f_equal. exact IH.
Qed.

(** A name with a suffix that is not empty is another name. *)
Lemma suffixed_is_other (a b : string) : b <> EmptyString -> a +:+ b <> a.
Proof.
  intros Hb H. apply (f_equal String.length) in H. rewrite length_append in H.
  destruct b; [contradiction|]. simpl in H. lia.
Qed.

End PathFacts.

(** ** The workers of the full rebuild *)

Module WorkerFacts.
Import Go LockJSON Worker GoFacts.

Section Host.
Variable FullReposPathOf : string -> string.
Variable PlainOpen : string -> string + Git.Repository.
Variable os : FsCall -> error.

(** The callback of the tree walk sends nothing and always returns. *)
Lemma copyFile_done dst file (s : State) :
  exists e s', run (copyFile os dst file) s = (Returned e, s') /\ done s' = done s.
Proof.
  unfold copyFile.
  destruct (Git.Mode_ToOSFileMode file) as [e|osMode]; [eexists _, _; split; reflexivity|].
  destruct (Git.Contents file) as [e|contents]; [eexists _, _; split; reflexivity|].
  destruct (Filepath.Split _) as [dir base].
  eexists _, _. split; reflexivity.
Qed.

Lemma ForEach_done {R} files at_end dst (s : State) :
  exists e s',
    ForEach (R := R) files at_end (copyFile os dst) s = (Cont e, s') /\ done s' = done s.
Proof.
  revert s. induction files as [|f files IH]; intros s; simpl.
  - eexists _, _. split; reflexivity.
  - destruct (copyFile_done dst f s) as (e & s1 & Hrun & Hdone).
    erewrite bind_cont; [|apply call_returned; exact Hrun].
    destruct e as [msg|]; simpl.
    + eexists _, _. split; [reflexivity|exact Hdone].
    + destruct (IH s1) as (e' & s' & Hfe & Hd'). rewrite Hfe.
      eexists _, _. split; [reflexivity|congruence].
Qed.

(** [copyGitRepos] returns, and what it has sent by then is one result. *)
Lemma copyGitRepos_sends_once repos startDir (s : State) :
  exists r s',
    run (copyGitRepos FullReposPathOf PlainOpen os repos startDir) s = (Returned tt, s')
    /\ done s' = done s ++ [r].
Proof.
  unfold copyGitRepos.
  destruct (PlainOpen _) as [e|r]; [eexists _, _; split; reflexivity|].
  destruct (Git.CommitObject r _) as [e|commitObj]; [eexists _, _; split; reflexivity|].
  destruct (Git.TreeObject r _) as [e|tree]; [eexists _, _; split; reflexivity|].
  destruct (ForEach_done (R := unit) (Git.Files tree) (Git.Files_end tree)
              (Filepath.Join startDir (encodeReposPath (Path repos))) s)
    as (e & s1 & Hfe & Hdone).
  erewrite run_bind_cont; [|exact Hfe].
  destruct e as [msg|]; simpl.
  - eexists _, _. split; [reflexivity|]. simpl. rewrite Hdone. reflexivity.
  - eexists _, _. split; [reflexivity|]. simpl. rewrite Hdone. reflexivity.
Qed.

(** [copyStaticRepos] returns, and what it has sent by then is one result. *)
Lemma copyStaticRepos_sends_once repos startDir (s : State) :
  exists r s',
    run (copyStaticRepos FullReposPathOf os repos startDir) s = (Returned tt, s')
    /\ done s' = done s ++ [r].
Proof.
  unfold copyStaticRepos, run, bind, syscall.
  destruct (os _) as [e|]; eexists _, _; split; reflexivity.
Qed.

(** A file whose mode cannot be converted or whose blob cannot be read
    stops the walk with an error. *)
Lemma copyFile_unreadable dst file (s : State) :
  Git.unreadable file ->
  exists msg s', run (copyFile os dst file) s = (Returned (Some msg), s').
Proof.
  unfold copyFile, Git.unreadable. intros [[e He]|[e He]].
  - rewrite He. eexists _, _. reflexivity.
  - rewrite He. destruct (Git.Mode_ToOSFileMode file); eexists _, _; reflexivity.
Qed.

Lemma copyFile_readable dst file (s : State) :
  Git.readable file ->
  exists s', run (copyFile os dst file) s = (Returned nil, s').
Proof.
  unfold copyFile, Git.readable. intros [[m Hm] [c Hc]]. rewrite Hm, Hc.
  destruct (Filepath.Split _) as [dir base]. eexists. reflexivity.
Qed.

Lemma ForEach_unreadable {R} files at_end dst (s : State) :
  List.Exists Git.unreadable files ->
  exists msg s', ForEach (R := R) files at_end (copyFile os dst) s = (Cont (Some msg), s').
Proof.
  intros Hex. revert s. induction files as [|f files IH]; intros s; [inversion Hex|].
  simpl. destruct (copyFile_done dst f s) as (e & s1 & Hrun & _).
  erewrite bind_cont; [|apply call_returned; exact Hrun].
  destruct e as [msg|]; simpl; [eexists _, _; reflexivity|].
  apply IH. inversion Hex as [? ? Hbad|]; [|assumption]. exfalso.
  destruct (copyFile_unreadable dst f s Hbad) as (msg & s' & Hrun').
  rewrite Hrun in Hrun'. discriminate Hrun'.
Qed.

Lemma ForEach_readable {R} files at_end dst (s : State) :
  Forall Git.readable files ->
  exists s', ForEach (R := R) files at_end (copyFile os dst) s = (Cont at_end, s').
Proof.
  intros Hall. revert s. induction Hall as [|f files Hf _ IH]; intros s; simpl.
  - eexists. reflexivity.
  - destruct (copyFile_readable dst f s Hf) as (s1 & Hrun).
    erewrite bind_cont; [|apply call_returned; exact Hrun]. simpl. apply IH.
Qed.

(** The part of the claim on extraction that holds: a file whose mode or
    content cannot be had fails the whole repository. *)
Lemma copyGitRepos_unreadable_file repos startDir r commitObj tree :
  PlainOpen (FullReposPathOf (Path repos)) = inr r ->
  Git.CommitObject r (Git.NewHash (Version repos)) = inr commitObj ->
  Git.TreeObject r (Git.TreeHash commitObj) = inr tree ->
  List.Exists Git.unreadable (Git.Files tree) ->
  exists msg,
    sends (copyGitRepos FullReposPathOf PlainOpen os repos startDir)
    = [mkResult (Some msg) repos].
Proof.
  intros Hopen Hcommit Htree Hbad. unfold sends, copyGitRepos.
  rewrite Hopen, Hcommit, Htree.
  destruct (ForEach_unreadable (R := unit) (Git.Files tree) (Git.Files_end tree)
              (Filepath.Join startDir (encodeReposPath (Path repos))) init Hbad)
    as (msg & s1 & Hfe).
  destruct (ForEach_done (R := unit) (Git.Files tree) (Git.Files_end tree)
              (Filepath.Join startDir (encodeReposPath (Path repos))) init)
    as (e & s2 & Hfe' & Hdone).
  rewrite Hfe in Hfe'. inversion Hfe'; subst e s2.
  erewrite run_bind_cont; [|exact Hfe]. exists msg. simpl.
  rewrite Hdone. reflexivity.
Qed.

(** Whatever the host answers to [os.MkdirAll] and [ioutil.WriteFile], a
    tree of readable files is reported as installed. *)
Lemma copyGitRepos_deaf_to_write_errors repos startDir r commitObj tree :
  PlainOpen (FullReposPathOf (Path repos)) = inr r ->
  Git.CommitObject r (Git.NewHash (Version repos)) = inr commitObj ->
  Git.TreeObject r (Git.TreeHash commitObj) = inr tree ->
  Forall Git.readable (Git.Files tree) ->
  Git.Files_end tree = nil ->
  sends (copyGitRepos FullReposPathOf PlainOpen os repos startDir)
  = [mkResult nil repos].
Proof.
  intros Hopen Hcommit Htree Hall Hend. unfold sends, copyGitRepos.
  rewrite Hopen, Hcommit, Htree.
  destruct (ForEach_readable (R := unit) (Git.Files tree) (Git.Files_end tree)
              (Filepath.Join startDir (encodeReposPath (Path repos))) init Hall)
    as (s1 & Hfe).
  destruct (ForEach_done (R := unit) (Git.Files tree) (Git.Files_end tree)
              (Filepath.Join startDir (encodeReposPath (Path repos))) init)
    as (e & s2 & Hfe' & Hdone).
  rewrite Hfe in Hfe'. inversion Hfe'; subst e s2.
  erewrite run_bind_cont; [|exact Hfe]. rewrite Hend. simpl.
  rewrite Hdone. reflexivity.
Qed.

(** *** What the extraction writes, and where *)

Lemma copyFile_calls dst file (s : State) :
  exists e,
    run (copyFile os dst file) s
    = (Returned e, mkState (calls s ++ file_calls os dst file) (done s))
    /\ (Git.readable file -> e = nil)
    /\ (Git.unreadable file -> exists msg, e = Some msg).
Proof.
  unfold copyFile, file_calls, Git.readable, Git.unreadable.
  destruct (Git.Mode_ToOSFileMode file) as [e|osMode].
  - eexists. split; [rewrite app_nil_r; destruct s; reflexivity|].
    split; [intros [[m Hm] _]; discriminate Hm|intros _; eexists; reflexivity].
  - destruct (Git.Contents file) as [e|contents].
    + eexists. split; [rewrite app_nil_r; destruct s; reflexivity|].
      split; [intros [_ [c Hc]]; discriminate Hc|intros _; eexists; reflexivity].
    + destruct (Filepath.Split (Filepath.Join dst (Git.Name file))) as [dir base] eqn:Hsplit.
      eexists. split.
      * unfold run, bind, syscall, Return. simpl. rewrite <- app_assoc. reflexivity.
      * split; [reflexivity|].
        intros [[e He]|[e He]]; discriminate He.
Qed.


Lemma ForEach_first_unreadable {R} good bad rest at_end dst (s : State) :
  Forall Git.readable good ->
  Git.unreadable bad ->
  exists msg,
    ForEach (R := R) (good ++ bad :: rest) at_end (copyFile os dst) s
    = (Cont (Some msg), mkState (calls s ++ flat_map (file_calls os dst) good) (done s)).
Proof.
  intros Hall Hbad. revert s. induction Hall as [|f files Hf _ IH]; intros s; simpl.
  - destruct (copyFile_calls dst bad s) as (e & Hrun & _ & Herr).
    destruct (Herr Hbad) as [msg ->].
    erewrite bind_cont; [|apply call_returned; exact Hrun]. simpl.
    exists msg. f_equal.
    assert (Hnone : file_calls os dst bad = []).
    { unfold file_calls. destruct Hbad as [[e He]|[e He]]; rewrite He; [reflexivity|].
      destruct (Git.Mode_ToOSFileMode bad); reflexivity. }
    rewrite Hnone. reflexivity.
  - destruct (copyFile_calls dst f s) as (e & Hrun & Hok & _).
    erewrite bind_cont; [|apply call_returned; exact Hrun].
    rewrite (Hok Hf). simpl.
    destruct (IH (mkState (calls s ++ file_calls os dst f) (done s))) as [msg Hmsg].
    exists msg. rewrite Hmsg. simpl. rewrite <- app_assoc. reflexivity.
Qed.


(** X11: The walk ends at the first file whose mode or content cannot be had:
    the files before it have been asked for, the ones after it have not,
    nothing is asked to be undone, and the one result carries an error. *)
Theorem copyGitRepos_stops_at_first_unreadable_file
    repos startDir r commitObj tree good bad rest (s : State) :
  PlainOpen (FullReposPathOf (Path repos)) = inr r ->
  Git.CommitObject r (Git.NewHash (Version repos)) = inr commitObj ->
  Git.TreeObject r (Git.TreeHash commitObj) = inr tree ->
  Git.Files tree = good ++ bad :: rest ->
  Forall Git.readable good ->
  Git.unreadable bad ->
  exists msg,
    run (copyGitRepos FullReposPathOf PlainOpen os repos startDir) s
    = (Returned tt,
       mkState (calls s ++ flat_map (file_calls os
                  (Filepath.Join startDir (encodeReposPath (Path repos)))) good)
               (done s ++ [mkResult (Some msg) repos])).
Proof.
  intros Hopen Hcommit Htree Hfiles Hall Hbad. unfold copyGitRepos.
  rewrite Hopen, Hcommit, Htree, Hfiles.
  destruct (ForEach_first_unreadable (R := unit) good bad rest (Git.Files_end tree)
              (Filepath.Join startDir (encodeReposPath (Path repos))) s Hall Hbad)
    as [msg Hfe].
  exists msg. erewrite run_bind_cont; [|exact Hfe]. reflexivity.
Qed.





End Host.

Import Examples.


Lemma copyGitRepos_stops_at_first_unreadable_file_witness :
  exists msg,
    run (copyGitRepos fullPath plainOpen_more obliging half "vim/pack/volt/start")
      Worker.init
    = (Returned tt,
       mkState ([] ++ flat_map (file_calls obliging
                  (Filepath.Join "vim/pack/volt/start" (encodeReposPath (Path half))))
                  [half_good])
               ([] ++ [mkResult (Some msg) half])).
Proof.
  apply (copyGitRepos_stops_at_first_unreadable_file fullPath plainOpen_more obliging half
           "vim/pack/volt/start"
           (Git.mkRepository (fun _ => inr (Git.mkCommit "t2")) (fun _ => inr half_tree)
              (inr false))
           (Git.mkCommit "t2") half_tree [half_good] half_bad [half_rest] Worker.init).
  - reflexivity.
  - reflexivity.
  - reflexivity.
  - reflexivity.
  - repeat constructor; eexists; reflexivity.
  - left. eexists. reflexivity.
Defined.


End WorkerFacts.

(** ** The orchestrator of the full rebuild *)

Module RebuildFacts.
Import Go LockJSON FS Rebuild GoFacts WorkerFacts.

Section Host.
Variable h : Host.

Lemma launch_loop_spec reposList (w : World) :
  launch_loop reposList w
  = (Cont tt, mkWorld (fs w) (trace w ++ map (fun r => EvLaunch (launch r)) reposList)
                      (copyDone w)).
Proof.
  revert w. induction reposList as [|repos rest IH]; intros w; simpl.
  - rewrite app_nil_r. destruct w; reflexivity.
  - unfold bind, log, modify. rewrite IH. simpl. rewrite <- app_assoc. reflexivity.
Qed.

(** The collecting loop on results that are all free of errors: it takes
    as many as it was asked to. *)
Lemma wait_copy_clean good rest n (w : World) :
  incoming (copyDone w) = good ++ rest ->
  Forall (fun r => err r = None) good ->
  n = length good ->
  wait_copy n w
  = (Cont tt, mkWorld (fs w) (trace w) (Chan rest (received (copyDone w) + n))).
Proof.
  intros Hin Hok ->. revert w Hin.
  induction Hok as [|r good Hr _ IH]; intros w Hin; simpl.
  - rewrite Nat.add_0_r. simpl in Hin. rewrite <- Hin. destruct w as [? ? []]; reflexivity.
  - unfold bind, recv_copyDone, recv. rewrite Hin. simpl. rewrite Hr.
    rewrite IH by reflexivity. simpl. rewrite Nat.add_succ_r. reflexivity.
Qed.

(** The collecting loop returns at the first result with an error. *)
Lemma wait_copy_first_error good bad e rest n (w : World) :
  incoming (copyDone w) = good ++ bad :: rest ->
  Forall (fun r => err r = None) good ->
  err bad = Some e ->
  length good < n ->
  wait_copy n w
  = (Ret (copy_failed bad e),
     mkWorld (fs w) (trace w) (Chan rest (received (copyDone w) + S (length good)))).
Proof.
  intros Hin Hok Hbad. revert n w Hin.
  induction Hok as [|r good Hr _ IH]; intros n w Hin Hn.
  - destruct n as [|n]; [simpl in Hn; lia|]. simpl.
    unfold bind, recv_copyDone, recv. rewrite Hin. simpl. rewrite Hbad.
    rewrite Nat.add_1_r. reflexivity.
  - destruct n as [|n]; [simpl in Hn; lia|]. simpl.
    unfold bind, recv_copyDone, recv. rewrite Hin. simpl. rewrite Hr.
    rewrite (IH n) by (simpl in *; first [reflexivity | lia]). simpl.
    rewrite !Nat.add_succ_r. reflexivity.
Qed.

(** Every unit of work of the launching loop sends one result. *)
Lemma task_of_single startDir repos :
  exists r, task_sends (task_of h startDir repos) = [r].
Proof.
  unfold task_of. destruct (launch repos) as [r|r|result]; simpl.
  - destruct (copyGitRepos_sends_once (FullReposPathOf h) (PlainOpen h) (os h)
                r startDir Worker.init) as (x & s' & Hrun & Hdone).
    exists x. unfold sends. rewrite Hrun. exact Hdone.
  - destruct (copyStaticRepos_sends_once (FullReposPathOf h) (os h)
                r startDir Worker.init) as (x & s' & Hrun & Hdone).
    exists x. unfold sends. rewrite Hrun. exact Hdone.
  - eexists. reflexivity.
Qed.

Lemma tasks_length startDir reposList :
  length (concat (map task_sends (map (task_of h startDir) reposList)))
  = length reposList.
Proof.
  induction reposList as [|repos rest IH]; simpl; [reflexivity|].
  destruct (task_of_single startDir repos) as [r Hr]. rewrite Hr. simpl.
  rewrite IH. reflexivity.
Qed.

Lemma admissible_Permutation reposList :
  admissible h reposList ->
  Permutation (schedule h)
    (concat (map task_sends (map (task_of h (VimVoltStartDir h)) reposList))).
Proof. intros Hadm. apply arrival_Permutation in Hadm. exact Hadm. Qed.

Lemma admissible_length reposList :
  admissible h reposList -> length (schedule h) = length reposList.
Proof.
  intros Hadm. rewrite (Permutation_length (admissible_Permutation _ Hadm)).
  apply tasks_length.
Qed.

Lemma join_remove_spec startDir removeDone (w : World) :
  exists w',
    join_remove h startDir removeDone w
    = (Cont (match removeDone with Some (Some e) => Some e | _ => nil end), w')
    /\ trace w' = trace w /\ copyDone w' = copyDone w.
Proof.
  destruct removeDone as [[e|]|]; eexists; (split; [reflexivity|split; reflexivity]).
Qed.

(** The second half of the rebuild when a result carries an error: what is
    returned is the error of the first such result to arrive, after it and
    the results before it were received. *)
Lemma install_first_error startDir reposList removeDone good bad e rest (w : World) :
  schedule h = good ++ bad :: rest ->
  Forall (fun r => err r = None) good ->
  err bad = Some e ->
  length good < length reposList ->
  exists w',
    run (install h startDir reposList removeDone) w = (Returned (copy_failed bad e), w')
    /\ copyDone w' = Chan rest (S (length good))
    /\ trace w' = trace w ++ map (fun r => EvLaunch (launch r)) reposList.
Proof.
  intros Hs Hok Hbad Hlen. unfold install.
  erewrite run_bind_cont; [|reflexivity].
  erewrite run_bind_cont; [|apply launch_loop_spec].
  match goal with |- context [run _ ?w0] =>
    destruct (join_remove_spec startDir removeDone w0) as (w1 & Hj & Htr & Hcd) end.
  erewrite run_bind_cont; [|exact Hj].
  erewrite run_bind_ret;
    [|apply (wait_copy_first_error good bad e rest); try eassumption;
      rewrite Hcd; exact Hs].
  eexists. split; [reflexivity|]. simpl. rewrite Hcd, Htr. split; reflexivity.
Qed.

(** The second half of the rebuild when no result carries an error: all
    results are received, and the outcome of the deletion is the outcome
    of the rebuild. *)
Lemma install_clean startDir reposList removeDone (w : World) :
  Forall (fun r => err r = None) (schedule h) ->
  length (schedule h) = length reposList ->
  exists w',
    run (install h startDir reposList removeDone) w
    = (Returned (match removeDone with
                 | Some (Some e) => remove_failed startDir e
                 | _ => nil
                 end), w')
    /\ copyDone w' = Chan [] (length reposList)
    /\ trace w' = trace w ++ map (fun r => EvLaunch (launch r)) reposList.
Proof.
  intros Hok Hlen. unfold install.
  erewrite run_bind_cont; [|reflexivity].
  erewrite run_bind_cont; [|apply launch_loop_spec].
  match goal with |- context [run _ ?w0] =>
    destruct (join_remove_spec startDir removeDone w0) as (w1 & Hj & Htr & Hcd) end.
  erewrite run_bind_cont; [|exact Hj].
  erewrite run_bind_cont;
    [|apply (wait_copy_clean (schedule h) []);
      [rewrite Hcd, app_nil_r; reflexivity|exact Hok|symmetry; exact Hlen]].
  rewrite Hcd. simpl.
  destruct removeDone as [[e|]|]; eexists;
    (split; [reflexivity|split; [reflexivity|exact Htr]]).
Qed.

Lemma doRebuild_after_prepare reposList removeDone (w w1 : World) :
  prepare h w = (Cont (reposList, removeDone), w1) ->
  run (doRebuild h) w = run (install h (VimVoltStartDir h) reposList removeDone) w1.
Proof. intros Hp. unfold doRebuild. erewrite run_bind_cont; [|exact Hp]. reflexivity. Qed.

(** A list of results is free of errors, or has a first result with one. *)
Lemma first_error (q : list copyReposResult) :
  Forall (fun r => err r = None) q
  \/ exists good bad e rest,
       q = good ++ bad :: rest /\ Forall (fun r => err r = None) good /\ err bad = Some e.
Proof.
  induction q as [|r q IH]; [left; constructor|].
  destruct (err r) as [e|] eqn:Hr.
  - right. exists [], r, e, q. repeat split; [constructor|exact Hr].
  - destruct IH as [Hok|(good & bad & e & rest & -> & Hok & Hbad)].
    + left. constructor; assumption.
    + right. exists (r :: good), bad, e, rest. repeat split; [constructor; assumption|exact Hbad].
Qed.


(** The first half of the rebuild only touches the file system. *)
Lemma call_on_fs_keeps {R R'} (m : M FS R' R') (w : World) :
  (exists r f, call (R := R) (on_fs m) w = (Cont r, mkWorld f (trace w) (copyDone w)))
  \/ (exists f, call (R := R) (on_fs m) w = (Block, mkWorld f (trace w) (copyDone w))).
Proof.
  unfold call, on_fs, zoom, set_fs. destruct (m (fs w)) as [[r|r|] f].
  - left. eexists _, _. reflexivity.
  - left. eexists _, _. reflexivity.
  - right. eexists. reflexivity.
Qed.

Lemma guard_loop_keeps files (w : World) :
  trace (snd (guard_loop files w)) = trace w
  /\ copyDone (snd (guard_loop files w)) = copyDone w.
Proof.
  revert w. induction files as [|file files IH]; intros w; simpl; [split; reflexivity|].
  unfold bind.
  destruct (call_on_fs_keeps (R := error) (RC.shouldHaveMagicComment file) w)
    as [(r & f & Hc)|(f & Hc)]; rewrite Hc; [|split; reflexivity].
  destruct r as [e|]; [split; reflexivity|].
  destruct (IH (mkWorld f (trace w) (copyDone w))) as [Ht Hc']. split; assumption.
Qed.

Lemma startup_keeps (w : World) :
  trace (snd (startup h w)) = trace w /\ copyDone (snd (startup h w)) = copyDone w.
Proof.
  unfold startup.
  destruct (lockjson_Read h) as [e|lockJSON]; [split; reflexivity|].
  destruct (getActiveProfileRepos lockJSON) as [e|reposList]; [split; reflexivity|].
  unfold bind.
  pose proof (guard_loop_keeps (LookUpVimrcOrGvimrc h) w) as [Ht0 Hc0].
  destruct (guard_loop (LookUpVimrcOrGvimrc h) w) as [[r|[]|] w0]; simpl in Ht0, Hc0;
    [split; assumption| |split; assumption].
  match goal with |- context [call (on_fs ?m) w0] =>
    destruct (call_on_fs_keeps (R := error) m w0) as [(r1 & f1 & Hc1)|(f1 & Hc1)];
    rewrite Hc1 end; [|simpl; split; congruence].
  destruct r1 as [e1|]; simpl; [split; congruence|].
  match goal with |- context [call (on_fs ?m) ?w1] =>
    destruct (call_on_fs_keeps (R := error) m w1) as [(r2 & f2 & Hc2)|(f2 & Hc2)];
    rewrite Hc2 end; [|simpl; split; congruence].
  destruct r2 as [e2|]; simpl; split; congruence.
Qed.

(** C7: when the rename of the start directory fails, [doRebuild] returns
    the error of the rename. The file system is the one the rename was
    tried on, the old tree under its old name, and of the retirement and
    the installation the history holds that one failed rename: no
    [os.MkdirAll], no deletion started, no unit of work launched. *)
Theorem rename_failure_aborts_rebuild (w w1 : World) reposList node e :
  startup h w = (Cont reposList, w1) ->
  fs w1 !! VimVoltStartDir h = Some node ->
  Rename_err h = Some e ->
  run (doRebuild h) w
  = (Returned (Some e),
     mkWorld (fs w1)
       (trace w ++ [EvRename (VimVoltStartDir h)
                      (VimVoltStartDir h +:+ ".old" +:+ random h) (Some e)])
       (copyDone w)).
Proof.
  intros Hstart Hnode Hren.
  pose proof (startup_keeps w) as [Ht Hc]. rewrite Hstart in Ht, Hc. simpl in Ht, Hc.
  unfold doRebuild, prepare.
  apply run_bind_ret. erewrite bind_cont; [|exact Hstart].
  apply bind_ret. unfold retire.
  erewrite bind_cont;
    [|unfold on_fs, zoom, pathutil_Exists, gets, Exists; rewrite Hnode; reflexivity].
  apply bind_ret.
  assert (Hrm : removeStartDir h (VimVoltStartDir h) w1
                = (Cont (None, Some e),
                   mkWorld (fs w1)
                     (trace w ++ [EvRename (VimVoltStartDir h)
                                    (VimVoltStartDir h +:+ ".old" +:+ random h) (Some e)])
                     (copyDone w))).
  { unfold removeStartDir, os_Rename, randomString.
    unfold bind, on_fs, zoom, FS.os_Rename, log, modify, set_fs. rewrite Hren.
    simpl. rewrite Ht, Hc. reflexivity. }
  erewrite bind_cont; [|exact Hrm]. reflexivity.
Qed.

(** C8: a repository of the rebuild list whose type is neither git nor
    static has its result, with the error [invalid repository type: ...],
    sent by the launching loop on [copyDone], where it arrives among the
    results of the workers, and [doRebuild] returns an error. *)
Theorem invalid_type_fails_rebuild (w w1 : World) reposList removeDone repos :
  prepare h w = (Cont (reposList, removeDone), w1) ->
  admissible h reposList ->
  In repos reposList ->
  Type_ repos <> ReposGitType ->
  Type_ repos <> ReposStaticType ->
  let result := mkResult (Some ("invalid repository type: " +:+ Type_ repos)) repos in
  In result (schedule h)
  /\ exists e w',
       run (doRebuild h) w = (Returned (Some e), w')
       /\ In (EvLaunch (SendNow result)) (trace w').
Proof.
  intros Hprep Hadm Hin Hgit Hstatic result.
  assert (Hlaunch : launch repos = SendNow result).
  { unfold launch.
    destruct (String.eqb_spec (Type_ repos) ReposGitType) as [E|_]; [contradiction|].
    destruct (String.eqb_spec (Type_ repos) ReposStaticType) as [E|_]; [contradiction|].
    reflexivity. }
  assert (Harrives : In result (schedule h)).
  { apply (Permutation_in _ (Permutation_sym (admissible_Permutation _ Hadm))).
    apply in_concat. exists [result]. split; [|left; reflexivity].
    apply in_map_iff. exists (task_of h (VimVoltStartDir h) repos). split.
    - unfold task_of. rewrite Hlaunch. reflexivity.
    - apply in_map. exact Hin. }
  split; [exact Harrives|].
  rewrite (doRebuild_after_prepare _ _ _ _ Hprep).
  destruct (first_error (schedule h)) as [Hok|(good & bad & e & rest & Hs & Hok & Hbad)].
  - pose proof (proj1 (List.Forall_forall _ _) Hok result Harrives) as Hnone.
    discriminate Hnone.
  - destruct (install_first_error (VimVoltStartDir h) reposList removeDone
                good bad e rest w1 Hs Hok Hbad) as (w' & Hrun & _ & Htr).
    { rewrite <- (admissible_length _ Hadm), Hs, length_app. simpl. lia. }
    eexists _, w'. split; [exact Hrun|].
    rewrite Htr. apply in_or_app. right.
    apply in_map_iff. exists repos. split; [rewrite Hlaunch; reflexivity|exact Hin].
Qed.


End Host.

Import Examples.

Lemma rename_failure_aborts_rebuild_witness :
  run (doRebuild rename_refused) (world built_fs)
  = (Returned (Some "permission denied"),
     mkWorld (fs (snd (startup rename_refused (world built_fs))))
       ([] ++ [EvRename "vim/pack/volt/start"
                 ("vim/pack/volt/start" +:+ ".old" +:+ "3w5e11264sgsg")
                 (Some "permission denied")])
       (Chan [] 0)).
Proof.
  apply (rename_failure_aborts_rebuild rename_refused (world built_fs)
           (snd (startup rename_refused (world built_fs))) [caw] (Dir old_tree)
           "permission denied").
  - vm_compute. reflexivity.
  - vm_compute. reflexivity.
  - reflexivity.
Defined.

Lemma odd_list_admissible : admissible odd_list [caw; odd].
Proof.
  unfold admissible. vm_compute.
  apply arrival_go, arrival_sync.
  apply (arrival_send _ [] [] [] []).
  apply (arrival_exit [] [] []). apply arrival_nil.
Qed.

Lemma invalid_type_fails_rebuild_witness :
  In (mkResult (Some "invalid repository type: hg") odd) (schedule odd_list)
  /\ exists e w',
       run (doRebuild odd_list) (world built_fs) = (Returned (Some e), w')
       /\ In (EvLaunch (SendNow (mkResult (Some "invalid repository type: hg") odd)))
             (trace w').
Proof.
  apply (invalid_type_fails_rebuild odd_list (world built_fs)
           (snd (prepare odd_list (world built_fs))) [caw; odd] (Some nil) odd).
  - vm_compute. reflexivity.
  - exact odd_list_admissible.
  - right. left. reflexivity.
  - discriminate.
  - discriminate.
Defined.



(** What the rebuild of [stuck_delete] returns. *)
Example stuck_delete_returns_copy_error :
  fst (run (doRebuild stuck_delete) (world built_fs))
  = Returned (Some ("failed to copy repository 'github.com/tyru/gone.vim': "
                      +:+ "failed to open repository: repository does not exist")).
Proof. vm_compute. reflexivity. Qed.

End RebuildFacts.

(** ** The link-strategy builder *)

Module SymlinkFacts.
Import Go LockJSON FS Symlink GoFacts.

Section Worker.
Variable FullReposPathOf PackReposPathOf : string -> string.
Variable PlainOpen : string -> string + Git.Repository.
Variable GOOS : string.
Variable host : Call -> error.
Variable updateBareGitRepos : string -> string -> Repos -> string -> actionReposResult.

Lemma symlink_done src dst (s : State) :
  exists s', call (R := unit) (symlink GOOS host src dst) s
             = (Cont (host (if String.eqb GOOS "windows"
                            then Mklink dst src else OsSymlink src dst)), s')
             /\ done s' = done s.
Proof.
  unfold symlink, call, bind, ask.
  destruct (String.eqb GOOS "windows"); eexists; split; reflexivity.
Qed.

Lemma helptags_done reposPath vimExePath (s : State) :
  exists s', call (R := unit) (helptags host reposPath vimExePath) s
             = (Cont (host (Helptags reposPath vimExePath)), s')
             /\ done s' = done s.
Proof. unfold helptags, call, bind, ask. eexists; split; reflexivity. Qed.

(** The probe of the repository either has sent one result and returned,
    or has sent nothing and goes on. *)
Lemma probe_bare_done repos src dst vimExePath (s : State) :
  (exists r, probe_bare PlainOpen updateBareGitRepos repos src dst vimExePath s
             = (Ret tt, mkState (calls s) (done s ++ [r])))
  \/ (exists copied, probe_bare PlainOpen updateBareGitRepos repos src dst vimExePath s
                     = (Cont copied, s)).
Proof.
  unfold probe_bare.
  destruct (String.eqb _ _); [|right; eexists; reflexivity].
  destruct (PlainOpen src) as [e|r]; [left; eexists; reflexivity|].
  destruct (Git.Config_IsBare r) as [e|[|]];
    [left; eexists; reflexivity| |right; eexists; reflexivity].
  unfold bind, when.
  destruct (err (updateBareGitRepos src dst repos vimExePath)) as [e|]; simpl.
  - left. eexists. reflexivity.
  - right. eexists. reflexivity.
Qed.

(** [installRepos] returns, and what it has sent by then is one result. *)
Lemma installRepos_sends_once repos vimExePath (s : State) :
  exists r s',
    run (installRepos FullReposPathOf PackReposPathOf PlainOpen GOOS host
           updateBareGitRepos repos vimExePath) s = (Returned tt, s')
    /\ done s' = done s ++ [r].
Proof.
  unfold installRepos.
  set (src := FullReposPathOf (LockJSON.Path repos)).
  set (dst := PackReposPathOf (LockJSON.Path repos)).
  destruct (probe_bare_done repos src dst vimExePath s) as [[r Hp]|[copied Hp]].
  - erewrite run_bind_ret; [|exact Hp]. eexists _, _. split; reflexivity.
  - erewrite run_bind_cont; [|exact Hp].
    destruct copied; simpl.
    + eexists _, _. split; reflexivity.
    + destruct (symlink_done src dst s) as (s1 & Hs1 & Hd1).
      unfold run, bind at 1 2. rewrite Hs1.
      destruct (host (if String.eqb GOOS "windows" then _ else _)) as [e|]; simpl.
      * eexists _, _. split; [reflexivity|]. simpl. rewrite Hd1. reflexivity.
      * destruct (helptags_done (LockJSON.Path repos) vimExePath s1) as (s2 & Hs2 & Hd2).
        unfold bind, ret. cbv beta iota. rewrite Hs2.
        destruct (host (Helptags _ _)) as [e|]; simpl;
          eexists _, _; (split; [reflexivity|]); simpl; rewrite Hd2, Hd1; reflexivity.
Qed.

End Worker.

Section Builder.
Variable h : Host.

Lemma Build_launch_loop_spec reposList (w : World) :
  launch_loop reposList w
  = (Cont tt,
     mkWorld (fs w)
       (buildInfo w ++ map (fun r => mkBuildRepos (LockJSON.Type_ r) (LockJSON.Path r)
                                       (LockJSON.Version r)) reposList)
       (launched w ++ reposList) (wrote_buildInfo w) (done_chan w)).
Proof.
  revert w. induction reposList as [|repos rest IH]; intros w; simpl.
  - rewrite !app_nil_r. destruct w; reflexivity.
  - unfold bind, modify. rewrite IH. simpl. rewrite <- !app_assoc. reflexivity.
Qed.

Lemma wait_done_clean err0 good rest n (w : World) :
  incoming (done_chan w) = good ++ rest ->
  Forall (fun r => err r = None) good ->
  n = length good ->
  wait_done err0 n w
  = (Cont tt, mkWorld (fs w) (buildInfo w) (launched w) (wrote_buildInfo w)
                (Chan rest (received (done_chan w) + n))).
Proof.
  intros Hin Hok ->. revert w Hin.
  induction Hok as [|r good Hr _ IH]; intros w Hin; simpl.
  - rewrite Nat.add_0_r. simpl in Hin. rewrite <- Hin. destruct w as [? ? ? ? []]; reflexivity.
  - unfold bind, recv_done, recv. rewrite Hin. simpl. rewrite Hr. simpl.
    rewrite IH by reflexivity. simpl. rewrite Nat.add_succ_r. reflexivity.
Qed.

(** The collecting loop returns at the first result with an error, and
    what it returns is the variable [err] of [Build]. *)
Lemma wait_done_first_error err0 good bad e rest n (w : World) :
  incoming (done_chan w) = good ++ bad :: rest ->
  Forall (fun r => err r = None) good ->
  err bad = Some e ->
  length good < n ->
  wait_done err0 n w
  = (Ret err0, mkWorld (fs w) (buildInfo w) (launched w) (wrote_buildInfo w)
                 (Chan rest (received (done_chan w) + S (length good)))).
Proof.
  intros Hin Hok Hbad. revert n w Hin.
  induction Hok as [|r good Hr _ IH]; intros n w Hin Hn.
  - destruct n as [|n]; [simpl in Hn; lia|]. simpl.
    unfold bind, recv_done, recv. rewrite Hin. simpl. rewrite Hbad. simpl.
    rewrite Nat.add_1_r. reflexivity.
  - destruct n as [|n]; [simpl in Hn; lia|]. simpl.
    unfold bind, recv_done, recv. rewrite Hin. simpl. rewrite Hr. simpl.
    rewrite (IH n) by (simpl in *; first [reflexivity | lia]). simpl.
    rewrite !Nat.add_succ_r. reflexivity.
Qed.

Lemma Build_task_of_single vimExePath repos :
  exists r, task_sends (task_of h vimExePath repos) = [r].
Proof.
  unfold task_of. simpl.
  destruct (installRepos_sends_once (FullReposPathOf h) (PackReposPathOf h) (PlainOpen h)
              (GOOS h) (host h) (updateBareGitRepos h) repos vimExePath init)
    as (x & s' & Hrun & Hdone).
  exists x. unfold sends. rewrite Hrun. exact Hdone.
Qed.

Lemma Build_admissible_length vimExePath reposList :
  admissible h vimExePath reposList -> length (schedule h) = length reposList.
Proof.
  intros Hadm. apply arrival_Permutation in Hadm.
  rewrite (Permutation_length Hadm). clear Hadm.
  induction reposList as [|repos rest IH]; [reflexivity|].
  change (length (task_sends (task_of h vimExePath repos)
                  ++ concat (map task_sends (map (task_of h vimExePath) rest)))
          = S (length rest)).
  destruct (Build_task_of_single vimExePath repos) as [r Hr].
  rewrite Hr. simpl in *. rewrite IH. reflexivity.
Qed.

(** When the first half of [Build] goes through, the variable [err] it
    leaves behind is nil. *)
Lemma prepare_err_nil (w w1 : World) reposList vimExePath err0 :
  prepare h w = (Cont (reposList, vimExePath, err0), w1) -> err0 = nil.
Proof.
  unfold prepare.
  destruct (VimExecutable h 0) as [exe0 e0].
  destruct e0 as [e0|]; [discriminate|]. unfold bind at 1. simpl.
  destruct (lockjson_Read h) as [e|lockJSON]; [discriminate|].
  destruct (getCurrentProfileAndReposList h lockJSON) as [e|[profile rl]]; [discriminate|].
  unfold bind at 1.
  destruct (on_fs _ w) as [[r|er|] wa]; [discriminate| |discriminate].
  unfold bind at 1. destruct er as [e|]; simpl; [discriminate|].
  unfold bind at 1.
  destruct (on_fs _ wa) as [[r|x|] wb]; [discriminate| |discriminate].
  unfold bind at 1.
  destruct (on_fs _ wb) as [[r|there|] wc]; [discriminate| |discriminate].
  unfold bind at 1. destruct there; simpl; [|discriminate].
  destruct (VimExecutable h 1) as [exe1 e1].
  destruct e1 as [e1|]; simpl; [discriminate|].
  intros H. inversion H. reflexivity.
Qed.

Lemma Build_after_prepare reposList vimExePath err0 (w w1 : World) :
  prepare h w = (Cont (reposList, vimExePath, err0), w1) ->
  run (Build h) w = run (install h reposList vimExePath err0) w1.
Proof. intros Hp. unfold Build. erewrite run_bind_cont; [|exact Hp]. reflexivity. Qed.

(** The second half of [Build] when a result carries an error. *)
Lemma Build_install_first_error reposList vimExePath err0 good bad e rest (w : World) :
  schedule h = good ++ bad :: rest ->
  Forall (fun r => err r = None) good ->
  err bad = Some e ->
  length good < length reposList ->
  exists w',
    run (install h reposList vimExePath err0) w = (Returned err0, w')
    /\ done_chan w' = Chan rest (S (length good))
    /\ wrote_buildInfo w' = wrote_buildInfo w.
Proof.
  intros Hs Hok Hbad Hlen. unfold install.
  erewrite run_bind_cont; [|reflexivity].
  erewrite run_bind_cont; [|apply Build_launch_loop_spec].
  erewrite run_bind_ret;
    [|apply (wait_done_first_error err0 good bad e rest); try eassumption; exact Hs].
  eexists. split; [reflexivity|]. split; reflexivity.
Qed.

(** The second half of [Build] when no result carries an error: all the
    results are received before anything else is done. *)
Lemma Build_install_clean reposList vimExePath err0 (w : World) :
  Forall (fun r => err r = None) (schedule h) ->
  length (schedule h) = length reposList ->
  exists out w',
    run (install h reposList vimExePath err0) w = (Returned out, w')
    /\ done_chan w' = Chan [] (length reposList).
Proof.
  intros Hok Hlen. unfold install.
  erewrite run_bind_cont; [|reflexivity].
  erewrite run_bind_cont; [|apply Build_launch_loop_spec].
  erewrite run_bind_cont;
    [|apply (wait_done_clean err0 (schedule h) []);
      [simpl; rewrite app_nil_r; reflexivity|exact Hok|symmetry; exact Hlen]].
  simpl. destruct (GenerateBundlePlugconf h reposList) as [content merr].
  destruct merr as [e|]; [eexists _, _; split; reflexivity|].
  unfold run, bind, on_fs, zoom, os_MkdirAll, ioutil_WriteFile, return_if_err,
    ret, get, put, Return.
  cbn [fs buildInfo launched wrote_buildInfo done_chan].
  repeat case_match; simplify_eq; eexists _, _; split; reflexivity.
Qed.

(** Once the collecting loop meets a result with an error, [Build] returns
    nil, and the build information is not written. *)
Lemma Build_swallows_worker_error (w w1 : World) reposList vimExePath err0
    good bad e rest :
  prepare h w = (Cont (reposList, vimExePath, err0), w1) ->
  admissible h vimExePath reposList ->
  schedule h = good ++ bad :: rest ->
  Forall (fun r => err r = None) good ->
  err bad = Some e ->
  exists w',
    run (Build h) w = (Returned nil, w')
    /\ done_chan w' = Chan rest (S (length good))
    /\ wrote_buildInfo w' = wrote_buildInfo w1.
Proof.
  intros Hprep Hadm Hs Hok Hbad.
  rewrite (Build_after_prepare _ _ _ _ _ Hprep).
  rewrite (prepare_err_nil _ _ _ _ _ Hprep).
  apply (Build_install_first_error reposList vimExePath nil good bad e rest w1 Hs Hok Hbad).
  rewrite <- (Build_admissible_length _ _ Hadm), Hs, length_app. simpl. lia.
Qed.

End Builder.

End SymlinkFacts.

(** ** The claims that span both builders, and the defects *)

Module Installer.
Import Go LockJSON GoFacts Examples.


(** C2, as the code has it: each collecting loop receives all the results
    when none of them carries an error; otherwise it returns on the first
    result that carries one, having received that result and the results
    before it and none of those after it. *)
Theorem collecting_loops_stop_at_first_error :
  (forall (h : Rebuild.Host) (w w1 : Rebuild.World) reposList removeDone,
      Rebuild.prepare h w = (Cont (reposList, removeDone), w1) ->
      Rebuild.admissible h reposList ->
      (Forall (fun r => Worker.err r = None) (Rebuild.schedule h) ->
       exists out w',
         run (Rebuild.doRebuild h) w = (Returned out, w')
         /\ received (Rebuild.copyDone w') = length reposList)
      /\ (forall good bad e rest,
            Rebuild.schedule h = good ++ bad :: rest ->
            Forall (fun r => Worker.err r = None) good ->
            Worker.err bad = Some e ->
            exists out w',
              run (Rebuild.doRebuild h) w = (Returned out, w')
              /\ received (Rebuild.copyDone w') = S (length good)
              /\ incoming (Rebuild.copyDone w') = rest
              /\ S (length good) + length rest = length reposList))
  /\ (forall (h : Symlink.Host) (w w1 : Symlink.World) reposList vimExePath err0,
      Symlink.prepare h w = (Cont (reposList, vimExePath, err0), w1) ->
      Symlink.admissible h vimExePath reposList ->
      (Forall (fun r => Symlink.err r = None) (Symlink.schedule h) ->
       exists out w',
         run (Symlink.Build h) w = (Returned out, w')
         /\ received (Symlink.done_chan w') = length reposList)
      /\ (forall good bad e rest,
            Symlink.schedule h = good ++ bad :: rest ->
            Forall (fun r => Symlink.err r = None) good ->
            Symlink.err bad = Some e ->
            exists out w',
              run (Symlink.Build h) w = (Returned out, w')
              /\ received (Symlink.done_chan w') = S (length good)
              /\ incoming (Symlink.done_chan w') = rest
              /\ S (length good) + length rest = length reposList)).
Proof.
  split.
  - intros h w w1 reposList removeDone Hprep Hadm.
    rewrite (RebuildFacts.doRebuild_after_prepare _ _ _ _ _ Hprep).
    pose proof (RebuildFacts.admissible_length _ _ Hadm) as Hlen. split.
    + intros Hok.
      destruct (RebuildFacts.install_clean h (Rebuild.VimVoltStartDir h) reposList
                  removeDone w1 Hok Hlen) as (w' & Hrun & Hchan & _).
      eexists _, w'. split; [exact Hrun|]. rewrite Hchan. reflexivity.
    + intros good bad e rest Hs Hok Hbad.
      assert (Hn : S (length good) + length rest = length reposList).
      { rewrite <- Hlen, Hs, length_app. simpl. lia. }
      destruct (RebuildFacts.install_first_error h (Rebuild.VimVoltStartDir h) reposList
                  removeDone good bad e rest w1 Hs Hok Hbad ltac:(lia))
        as (w' & Hrun & Hchan & _).
      eexists _, w'. split; [exact Hrun|]. rewrite Hchan. repeat split. exact Hn.
  - intros h w w1 reposList vimExePath err0 Hprep Hadm.
    rewrite (SymlinkFacts.Build_after_prepare _ _ _ _ _ _ Hprep).
    pose proof (SymlinkFacts.Build_admissible_length _ _ _ Hadm) as Hlen. split.
    + intros Hok.
      destruct (SymlinkFacts.Build_install_clean h reposList vimExePath err0 w1 Hok Hlen)
        as (out & w' & Hrun & Hchan).
      eexists _, w'. split; [exact Hrun|]. rewrite Hchan. reflexivity.
    + intros good bad e rest Hs Hok Hbad.
      assert (Hn : S (length good) + length rest = length reposList).
      { rewrite <- Hlen, Hs, length_app. simpl. lia. }
      destruct (SymlinkFacts.Build_install_first_error h reposList vimExePath err0
                  good bad e rest w1 Hs Hok Hbad ltac:(lia))
        as (w' & Hrun & Hchan & _).
      eexists _, w'. split; [exact Hrun|]. rewrite Hchan. repeat split. exact Hn.
Qed.

Lemma lost_and_found_rebuild_admissible : Rebuild.admissible lost_and_found_rebuild [gone; caw].
Proof.
  unfold Rebuild.admissible. vm_compute.
  apply arrival_go. apply (arrival_send _ [] _ [] []).
  apply (arrival_exit _ [] []).
  apply arrival_go. apply (arrival_send _ [] [] [] []).
  apply (arrival_exit [] [] []). apply arrival_nil.
Qed.

(** The worker launched second is the first to send. *)
Lemma static_and_git_admissible : Rebuild.admissible static_and_git [notes; caw].
Proof.
  unfold Rebuild.admissible. vm_compute.
  apply arrival_go, arrival_go.
  apply (arrival_send _ [] [] [] [_]).
  apply (arrival_exit [] [] [_]).
  apply (arrival_send _ [] [] [] []).
  apply (arrival_exit [] [] []). apply arrival_nil.
Qed.

Lemma lost_and_found_admissible : Symlink.admissible lost_and_found "/usr/bin/vim" [gone; caw].
Proof.
  unfold Symlink.admissible. vm_compute.
  apply arrival_go. apply (arrival_send _ [] _ [] []).
  apply (arrival_exit _ [] []).
  apply arrival_go. apply (arrival_send _ [] [] [] []).
  apply (arrival_exit [] [] []). apply arrival_nil.
Qed.

Lemma twice_caw_admissible : Symlink.admissible twice_caw "/usr/bin/vim" [caw; caw].
Proof.
  unfold Symlink.admissible. vm_compute.
  apply arrival_go, arrival_go.
  apply (arrival_send _ [] [] [] [_]).
  apply (arrival_exit [] [] [_]).
  apply (arrival_send _ [] [] [] []).
  apply (arrival_exit [] [] []). apply arrival_nil.
Qed.

Lemma lost_clone_admissible : Symlink.admissible lost_clone "/usr/bin/vim" [gone].
Proof.
  unfold Symlink.admissible. vm_compute.
  apply arrival_go. apply (arrival_send _ [] [] [] []).
  apply (arrival_exit [] [] []). apply arrival_nil.
Qed.

Lemma collecting_loops_stop_at_first_error_witness :
  (exists out w',
      run (Rebuild.doRebuild static_and_git) (world built_fs) = (Returned out, w')
      /\ received (Rebuild.copyDone w') = 2)
  /\ (exists out w',
        run (Rebuild.doRebuild lost_and_found_rebuild) (world built_fs) = (Returned out, w')
        /\ received (Rebuild.copyDone w') = 1
        /\ incoming (Rebuild.copyDone w') = [caw_copied]
        /\ 1 + 1 = 2)
  /\ (exists out w',
        run (Symlink.Build twice_caw) (symlink_world source_fs) = (Returned out, w')
        /\ received (Symlink.done_chan w') = 2)
  /\ (exists out w',
        run (Symlink.Build lost_and_found) (symlink_world source_fs) = (Returned out, w')
        /\ received (Symlink.done_chan w') = 1
        /\ incoming (Symlink.done_chan w') = [caw_linked]
        /\ 1 + 1 = 2).
Proof.
  destruct collecting_loops_stop_at_first_error as [Hrebuild Hbuild].
  split; [|split; [|split]].
  - apply (proj1 (Hrebuild static_and_git (world built_fs)
                    (snd (Rebuild.prepare static_and_git (world built_fs)))
                    [notes; caw] (Some nil)
                    ltac:(vm_compute; reflexivity) static_and_git_admissible)).
    repeat constructor.
  - apply (proj2 (Hrebuild lost_and_found_rebuild (world built_fs)
                    (snd (Rebuild.prepare lost_and_found_rebuild (world built_fs)))
                    [gone; caw] (Some nil)
                    ltac:(vm_compute; reflexivity) lost_and_found_rebuild_admissible)
             [] gone_failed
             "failed to open repository: repository does not exist" [caw_copied]).
    + reflexivity.
    + constructor.
    + reflexivity.
  - apply (proj1 (Hbuild twice_caw (symlink_world source_fs)
                    (snd (Symlink.prepare twice_caw (symlink_world source_fs)))
                    [caw; caw] "/usr/bin/vim" nil
                    ltac:(vm_compute; reflexivity) twice_caw_admissible)).
    repeat constructor.
  - destruct gone_link_failed as [e r] eqn:Hg.
    destruct e as [e|]; [|discriminate Hg].
    apply (proj2 (Hbuild lost_and_found (symlink_world source_fs)
                    (snd (Symlink.prepare lost_and_found (symlink_world source_fs)))
                    [gone; caw] "/usr/bin/vim" nil
                    ltac:(vm_compute; reflexivity) lost_and_found_admissible)
             [] gone_link_failed e [caw_linked]).
    + reflexivity.
    + constructor.
    + rewrite Hg. reflexivity.
Defined.

(** Against C2 as it is written: two repositories, the clone of the first
    one missing; each builder returns having received one result of the
    two, the other one still in the channel. *)
Lemma collecting_loops_return_early :
  length [gone; caw] = 2
  /\ Rebuild.admissible lost_and_found_rebuild [gone; caw]
  /\ fst (run (Rebuild.doRebuild lost_and_found_rebuild) (world built_fs))
     = Returned (Some ("failed to copy repository 'github.com/tyru/gone.vim': "
                         +:+ "failed to open repository: repository does not exist"))
  /\ Rebuild.copyDone (snd (run (Rebuild.doRebuild lost_and_found_rebuild) (world built_fs)))
     = Chan [caw_copied] 1
  /\ Symlink.admissible lost_and_found "/usr/bin/vim" [gone; caw]
  /\ fst (run (Symlink.Build lost_and_found) (symlink_world source_fs)) = Returned nil
  /\ Symlink.done_chan (snd (run (Symlink.Build lost_and_found) (symlink_world source_fs)))
     = Chan [caw_linked] 1.
Proof.
  split; [reflexivity|].
  split; [exact lost_and_found_rebuild_admissible|].
  split; [vm_compute; reflexivity|].
  split; [vm_compute; reflexivity|].
  split; [exact lost_and_found_admissible|].
  split; vm_compute; reflexivity.
Qed.

(** C1 fails on the code: the one repository of the list has no clone, its
    worker's result carries an error, the loop receives it, and [Build]
    returns nil; the build information is not written. *)
Theorem Build_returns_nil_on_worker_error :
  Symlink.admissible lost_clone "/usr/bin/vim" [gone]
  /\ Symlink.schedule lost_clone = [gone_link_failed]
  /\ Symlink.err gone_link_failed <> nil
  /\ fst (run (Symlink.Build lost_clone) (symlink_world source_fs)) = Returned nil
  /\ Symlink.done_chan (snd (run (Symlink.Build lost_clone) (symlink_world source_fs)))
     = Chan [] 1
  /\ Symlink.wrote_buildInfo
       (snd (run (Symlink.Build lost_clone) (symlink_world source_fs))) = false.
Proof.
  split; [exact lost_clone_admissible|].
  split; [reflexivity|].
  split; [discriminate|].
  split; [vm_compute; reflexivity|].
  split; vm_compute; reflexivity.
Qed.

(** C3 fails on the code: the two given names are encoded as the claim
    says, and yet two different paths have one encoding. *)
Theorem encodeReposPath_collides :
  encodeReposPath "a/b" = "a_b"
  /\ encodeReposPath "a_b" = "a__b"
  /\ "gitlab.com/a_/b" <> "gitlab.com/a/_b"
  /\ encodeReposPath "gitlab.com/a_/b" = "gitlab.com_a___b"
  /\ encodeReposPath "gitlab.com/a/_b" = "gitlab.com_a___b".
Proof. repeat split; try reflexivity. discriminate. Qed.

(** C4 fails on the code: on a disk that takes no write, both
    [os.MkdirAll] and [ioutil.WriteFile] fail for the one file of the tree,
    and the worker's result carries no error. *)
Theorem copyGitRepos_write_failure_unreported :
  let s := snd (run (Worker.copyGitRepos fullPath plainOpen read_only caw
                       "vim/pack/volt/start") Worker.init) in
  Worker.done s = [Worker.mkResult nil caw]
  /\ Worker.calls s
     = [(Worker.MkdirAll "vim/pack/volt/start/github.com_tyru_caw.vim/plugin/" 493,
         Some "read-only file system");
        (Worker.WriteFile "vim/pack/volt/start/github.com_tyru_caw.vim/plugin/caw.vim"
           "echo 1" 420,
         Some "read-only file system")].
Proof. vm_compute. split; reflexivity. Qed.

End Installer.

(** ** The retirement of the start directory, the guard loop and the
    command *)

Module RetireFacts.
Import Go LockJSON FS Rebuild GoFacts RebuildFacts.

Section Host.
Variable h : Host.

Lemma oldDir_is_other startDir : startDir +:+ ".old" +:+ random h <> startDir.
Proof. apply PathFacts.suffixed_is_other. discriminate. Qed.

(** X14: With a start directory in place and a host that lets it be renamed
    and made anew: afterwards the start directory is there and empty, what
    it held sits under the name with the random suffix, every other path is
    as before, one deletion has been started, for that name, and its
    outcome is what the channel will deliver. *)
Theorem retire_replaces_start_directory (w : World) startDir node :
  fs w !! startDir = Some node ->
  Rename_err h = nil ->
  MkdirAll_err h = nil ->
  let oldDir := startDir +:+ ".old" +:+ random h in
  retire h startDir w
  = (Cont (Some (RemoveAll_err h)),
     mkWorld (<[startDir := Dir ∅]> (<[oldDir := node]> (delete startDir (fs w))))
       (trace w ++ [EvRename startDir oldDir nil; EvGoRemoveAll oldDir;
                    EvMkdirAll startDir nil])
       (copyDone w)).
Proof.
  intros Hnode Hren Hmk oldDir.
  assert (Hother : oldDir <> startDir) by apply oldDir_is_other.
  unfold retire.
  erewrite bind_cont;
    [|unfold on_fs, zoom, pathutil_Exists, gets, Exists; rewrite Hnode; reflexivity].
  assert (Hrm : removeStartDir h startDir (set_fs (fs w) w)
                = (Cont (Some (RemoveAll_err h), nil),
                   mkWorld (<[oldDir := node]> (delete startDir (fs w)))
                     (trace w ++ [EvRename startDir oldDir nil; EvGoRemoveAll oldDir])
                     (copyDone w))).
  { unfold removeStartDir, os_Rename, randomString.
    unfold bind, on_fs, zoom, FS.os_Rename, log, modify, set_fs, ret. simpl.
    rewrite Hren, Hnode. simpl. rewrite <- app_assoc. reflexivity. }
  unfold bind at 1. unfold bind at 1. rewrite Hrm. cbv beta iota.
  unfold bind at 1. unfold return_if_err at 1, ret at 1. cbv beta iota.
  unfold ret at 1. cbv beta iota.
  unfold os_MkdirAll, bind, on_fs, zoom, FS.os_MkdirAll, log, modify, set_fs,
    return_if_err, ret. simpl.
  rewrite Hmk. rewrite lookup_insert_ne by exact Hother. rewrite lookup_delete_eq.
  simpl. rewrite <- app_assoc. reflexivity.
Qed.

(** X15: Without a start directory nothing is renamed and no deletion is
    started: the directory is made, and the channel of the deletion stays
    nil. When the host refuses to make it, its error is returned. *)
Theorem retire_without_start_directory (w : World) startDir :
  fs w !! startDir = None ->
  retire h startDir w
  = match MkdirAll_err h with
    | None =>
        (Cont None,
         mkWorld (<[startDir := Dir ∅]> (fs w))
           (trace w ++ [EvMkdirAll startDir nil]) (copyDone w))
    | Some e =>
        (Ret (Some e),
         mkWorld (fs w) (trace w ++ [EvMkdirAll startDir (Some e)]) (copyDone w))
    end.
Proof.
  intros Hnone. unfold retire.
  erewrite bind_cont;
    [|unfold on_fs, zoom, pathutil_Exists, gets, Exists; rewrite Hnone; reflexivity].
  unfold os_MkdirAll, bind, on_fs, zoom, FS.os_MkdirAll, log, modify, set_fs,
    return_if_err, ret. simpl.
  destruct (MkdirAll_err h) as [e|]; simpl; [reflexivity|].
  rewrite Hnone. reflexivity.
Qed.

(** The guard loop changes nothing; it stops with an error at the first
    listed file the guard refuses, and goes on when the guard passes all of
    them. *)
Lemma guard_loop_spec files (w : World) :
  (exists e, guard_loop files w = (Ret (Some e), w)
             /\ exists file, In file files
                  /\ fst (run (RC.shouldHaveMagicComment file) (fs w)) <> Returned nil)
  \/ (guard_loop files w = (Cont tt, w)
      /\ forall file, In file files ->
           fst (run (RC.shouldHaveMagicComment file) (fs w)) = Returned nil).
Proof.
  induction files as [|file files IH]; [right; split; [reflexivity|intros ? []]|].
  destruct (RCFacts.shouldHaveMagicComment_pure (fs w) file) as [e He].
  assert (Hcall : call (R := error) (on_fs (RC.shouldHaveMagicComment file)) w
                  = (Cont e, w)).
  { unfold call, on_fs, zoom. unfold run in He.
    destruct (RC.shouldHaveMagicComment file (fs w)) as [[r|r|] f];
      inversion He; subst; destruct w; reflexivity. }
  assert (Hstep : guard_loop (file :: files) w
                  = match e with
                    | Some msg =>
                        (Ret (errors_New ("already exists user vimrc or gvimrc: " +:+ msg)), w)
                    | None => guard_loop files w
                    end).
  { simpl. unfold bind at 1. rewrite Hcall. destruct e; reflexivity. }
  rewrite Hstep. clear Hstep. destruct e as [msg|].
  - left. eexists. split; [reflexivity|].
    exists file. split; [left; reflexivity|]. rewrite He. discriminate.
  - destruct IH as [(e' & Hloop & file' & Hin & Hbad)|[Hloop Hall]].
    + left. exists e'. split; [exact Hloop|].
      exists file'. split; [right; exact Hin|exact Hbad].
    + right. split; [exact Hloop|].
      intros file' [<-|Hin]; [rewrite He; reflexivity|apply Hall; exact Hin].
Qed.

(** X16: A listed startup file of the user's own, one that does not start with
    the marker, stops the rebuild before anything is changed: [doRebuild]
    returns an error and the world is as it was. *)
Theorem unmarked_rc_file_blocks_rebuild (w : World) lockJSON reposList file content :
  lockjson_Read h = inr lockJSON ->
  getActiveProfileRepos lockJSON = inr reposList ->
  In file (LookUpVimrcOrGvimrc h) ->
  fs w !! file = Some (File content) ->
  take (length (list_byte_of_string RC.magicComment)) content
    <> list_byte_of_string RC.magicComment ->
  exists e, run (doRebuild h) w = (Returned (Some e), w).
Proof.
  intros Hlock Hrepos Hin Hfile Hne.
  destruct (guard_loop_spec (LookUpVimrcOrGvimrc h) w)
    as [(e & Hloop & _)|[_ Hall]].
  - exists e. unfold doRebuild, prepare, startup. rewrite Hlock, Hrepos.
    apply run_bind_ret. apply bind_ret. apply bind_ret. exact Hloop.
  - exfalso. specialize (Hall file Hin).
    rewrite (RCFacts.shouldHaveMagicComment_file (fs w) file content Hfile) in Hall.
    simpl in Hall. destruct (decide _) as [E|_]; [exact (Hne E)|discriminate Hall].
Qed.


End Host.

Import Examples.

Lemma retire_replaces_start_directory_witness :
  retire stuck_delete "vim/pack/volt/start" (world built_fs)
  = (Cont (Some (Some "directory not empty")),
     mkWorld (<["vim/pack/volt/start" := Dir ∅]>
                (<["vim/pack/volt/start" +:+ ".old" +:+ "3w5e11264sgsg" := Dir old_tree]>
                   (delete "vim/pack/volt/start" built_fs)))
       ([] ++ [EvRename "vim/pack/volt/start"
                 ("vim/pack/volt/start" +:+ ".old" +:+ "3w5e11264sgsg") nil;
               EvGoRemoveAll ("vim/pack/volt/start" +:+ ".old" +:+ "3w5e11264sgsg");
               EvMkdirAll "vim/pack/volt/start" nil])
       (Chan [] 0)).
Proof.
  apply (retire_replaces_start_directory stuck_delete (world built_fs)
           "vim/pack/volt/start" (Dir old_tree)); reflexivity.
Defined.

Lemma retire_without_start_directory_witness :
  retire stuck_delete "vim/pack/volt/start" (world source_fs)
  = (Cont None,
     mkWorld (<["vim/pack/volt/start" := Dir ∅]> source_fs)
       ([] ++ [EvMkdirAll "vim/pack/volt/start" nil]) (Chan [] 0)).
Proof.
  apply (retire_without_start_directory stuck_delete (world source_fs)
           "vim/pack/volt/start").
  reflexivity.
Defined.

Lemma unmarked_rc_file_blocks_rebuild_witness :
  exists e, run (doRebuild users_vimrc) (world (user_fs ∪ built_fs))
            = (Returned (Some e), world (user_fs ∪ built_fs)).
Proof.
  apply (unmarked_rc_file_blocks_rebuild users_vimrc (world (user_fs ∪ built_fs))
           (lockJSON [caw]) [caw] "vim/vimrc" (list_byte_of_string "set nocompatible")).
  - reflexivity.
  - reflexivity.
  - left. reflexivity.
  - vm_compute. reflexivity.
  - vm_compute. discriminate.
Defined.



End RetireFacts.

(** ** The command *)

Module CommandFacts.
Import Go GoFacts Examples Command.

(** X18: The exit code of the command. When the transaction cannot be begun
    the code is 10: the rebuild is not run, the world is as it was and no
    transaction is removed. Otherwise the code is 11 when [doRebuild]
    returns an error and 0 when it returns nil, and in both cases the
    transaction is removed, once, after the rebuild. *)
Theorem Rebuild_exit_code (h : Host) args (s : State) :
  (forall e,
      transaction_Create h = Some e ->
      run (Rebuild h args) s
      = (Returned 10%Z,
         mkState (events s ++ [TransactionCreate (Some e);
                               LoggerError ["Failed to begin transaction:"; e]])
                 (world s)))
  /\ (forall r w',
      transaction_Create h = None ->
      run (Rebuild.doRebuild (rebuild h)) (world s) = (Returned r, w') ->
      run (Rebuild h args) s
      = (Returned (match r with Some _ => 11%Z | None => 0%Z end),
         mkState (events s ++ [TransactionCreate nil]
                    ++ match r with
                       | Some e => [LoggerError ["Failed to rebuild:"; e]]
                       | None => []
                       end
                    ++ [TransactionRemove])
                 w')).
Proof.
  split.
  - intros e He. unfold Rebuild. rewrite He.
    unfold run, bind, record, modify, Return. simpl.
    rewrite <- app_assoc. reflexivity.
  - intros r w' Hcreate Hrun. unfold Rebuild. rewrite Hcreate.
    unfold run in Hrun |- *. unfold bind at 1. unfold record at 1, modify at 1.
    cbv beta iota. unfold defer, bind, call, on_world, zoom. simpl.
    destruct (Rebuild.doRebuild (rebuild h) (world s)) as [[x|x|] w2];
      inversion Hrun; subst; destruct r as [e|]; simpl;
      rewrite <- ?app_assoc; reflexivity.
Qed.

Lemma Rebuild_exit_code_witness :
  run (Rebuild (mkHost stuck_delete (Some "transaction is locked")) [])
    (mkState [] (Examples.world built_fs))
  = (Returned 10%Z,
     mkState ([] ++ [TransactionCreate (Some "transaction is locked");
                     LoggerError ["Failed to begin transaction:"; "transaction is locked"]])
             (Examples.world built_fs))
  /\ fst (run (Rebuild (mkHost stuck_delete None) []) (mkState [] (Examples.world built_fs)))
     = Returned 11%Z
  /\ fst (run (Rebuild (mkHost static_and_git None) []) (mkState [] (Examples.world built_fs)))
     = Returned 0%Z.
Proof.
  split; [|split].
  - apply (proj1 (Rebuild_exit_code (mkHost stuck_delete (Some "transaction is locked"))
                    [] (mkState [] (Examples.world built_fs)))).
    reflexivity.
  - rewrite (proj2 (Rebuild_exit_code (mkHost stuck_delete None) []
                      (mkState [] (Examples.world built_fs)))
               (Some ("failed to copy repository 'github.com/tyru/gone.vim': "
                        +:+ "failed to open repository: repository does not exist"))
               (snd (run (Rebuild.doRebuild stuck_delete) (Examples.world built_fs)))
               eq_refl ltac:(vm_compute; reflexivity)).
    reflexivity.
  - rewrite (proj2 (Rebuild_exit_code (mkHost static_and_git None) []
                      (mkState [] (Examples.world built_fs)))
               None
               (snd (run (Rebuild.doRebuild static_and_git) (Examples.world built_fs)))
               eq_refl ltac:(vm_compute; reflexivity)).
    reflexivity.
Defined.

End CommandFacts.

(** ** The link-strategy builder: which repository is linked, and what a
    build that goes through leaves behind *)

Module LinkFacts.
Import Go LockJSON FS Symlink GoFacts SymlinkFacts.

Section Worker.
Variable FullReposPathOf PackReposPathOf : string -> string.
Variable PlainOpen : string -> string + Git.Repository.
Variable GOOS : string.
Variable host : Call -> error.
Variable updateBareGitRepos : string -> string -> Repos -> string -> actionReposResult.

Let worker := installRepos FullReposPathOf PackReposPathOf PlainOpen GOOS host
                updateBareGitRepos.

(** What the worker does once it has found nothing to extract. *)
Lemma installRepos_link repos vimExePath (s : State) :
  probe_bare PlainOpen updateBareGitRepos repos (FullReposPathOf (LockJSON.Path repos))
    (PackReposPathOf (LockJSON.Path repos)) vimExePath s = (Cont false, s) ->
  let link := link_call GOOS (FullReposPathOf (LockJSON.Path repos))
                (PackReposPathOf (LockJSON.Path repos)) in
  let tags := Helptags (LockJSON.Path repos) vimExePath in
  run (worker repos vimExePath) s
  = match host link with
    | Some e =>
        (Returned tt,
         mkState (calls s ++ [(link, Some e)]) (done s ++ [mkResult (Some e) None]))
    | None =>
        match host tags with
        | Some e =>
            (Returned tt,
             mkState (calls s ++ [(link, nil); (tags, Some e)])
                     (done s ++ [mkResult (Some e) None]))
        | None =>
            (Returned tt,
             mkState (calls s ++ [(link, nil); (tags, nil)])
                     (done s ++ [mkResult nil (Some repos)]))
        end
    end.
Proof.
  intros Hprobe link tags. unfold worker, installRepos.
  erewrite run_bind_cont; [|exact Hprobe].
  unfold run, bind, when, call, symlink, helptags, ask, send, modify, Return, ret.
  fold link. unfold link_call in link. subst link tags.
  destruct (String.eqb GOOS "windows"); simpl;
    (match goal with |- context [host ?c] => destruct (host c) as [e|] eqn:Hl end);
    simpl; rewrite ?Hl; simpl; try reflexivity;
    (destruct (host (Helptags (LockJSON.Path repos) vimExePath)) as [e'|] eqn:Ht);
    simpl; rewrite ?Hl, ?Ht; simpl; rewrite <- ?app_assoc; reflexivity.
Qed.

(** X19: A repository that is not of the git type, or whose clone has a working
    tree, is linked: the worker asks for the link from the destination to
    the clone, then, only when the link was made, for the help tags; the
    first error is the error of its result, and without an error the
    result names the repository. *)
Theorem installRepos_links_working_copy repos vimExePath (s : State) :
  LockJSON.Type_ repos <> ReposGitType
  \/ (exists r, PlainOpen (FullReposPathOf (LockJSON.Path repos)) = inr r
                /\ Git.Config_IsBare r = inr false) ->
  let link := link_call GOOS (FullReposPathOf (LockJSON.Path repos))
                (PackReposPathOf (LockJSON.Path repos)) in
  let tags := Helptags (LockJSON.Path repos) vimExePath in
  run (installRepos FullReposPathOf PackReposPathOf PlainOpen GOOS host
         updateBareGitRepos repos vimExePath) s
  = match host link with
    | Some e =>
        (Returned tt,
         mkState (calls s ++ [(link, Some e)]) (done s ++ [mkResult (Some e) None]))
    | None =>
        match host tags with
        | Some e =>
            (Returned tt,
             mkState (calls s ++ [(link, nil); (tags, Some e)])
                     (done s ++ [mkResult (Some e) None]))
        | None =>
            (Returned tt,
             mkState (calls s ++ [(link, nil); (tags, nil)])
                     (done s ++ [mkResult nil (Some repos)]))
        end
    end.
Proof.
  intros Hcase. apply installRepos_link. unfold probe_bare.
  destruct Hcase as [Hstatic|(r & Hopen & Hbare)].
  - destruct (String.eqb_spec (LockJSON.Type_ repos) ReposGitType) as [E|_];
      [contradiction|reflexivity].
  - destruct (String.eqb (LockJSON.Type_ repos) ReposGitType); [|reflexivity].
    rewrite Hopen, Hbare. reflexivity.
Qed.


End Worker.

Section Builder.
Variable h : Host.

Lemma os_MkdirAll_result {R} refusal path (f : FS) :
  exists e f',
    os_MkdirAll (R := R) refusal path f = (Cont e, f')
    /\ (f' = f \/ f' = <[path := Dir ∅]> f).
Proof.
  unfold os_MkdirAll. destruct refusal as [e|]; [eexists _, _; split; [reflexivity|left; reflexivity]|].
  destruct (f !! path) as [[c|t]|]; eexists _, _;
    (split; [reflexivity|]); [left|left|right]; reflexivity.
Qed.

Lemma ioutil_WriteFile_ok {R} (f : FS) path data :
  (forall tree, f !! path <> Some (Dir tree)) ->
  ioutil_WriteFile (R := R) nil path data f = (Cont nil, <[path := File data]> f).
Proof.
  intros Hfree. unfold ioutil_WriteFile.
  destruct (f !! path) as [[c|t]|] eqn:Hp; try reflexivity.
  exfalso. exact (Hfree t eq_refl).
Qed.

(** The builder after the collecting loop has received all the results,
    none of them with an error. *)
Lemma install_collected reposList vimExePath err0 (w : World) :
  Forall (fun r => err r = None) (schedule h) ->
  length (schedule h) = length reposList ->
  run (install h reposList vimExePath err0) w
  = run (let '(content, merr) := GenerateBundlePlugconf h reposList in
         let* _ := return_if_err merr in
         let conf := BundledPlugConf h in
         let* _ := on_fs (os_MkdirAll (MkdirAll_err h (Filepath.Dir conf))
                            (Filepath.Dir conf)) in
         let* err := on_fs (ioutil_WriteFile (WriteFile_err h conf) conf content) in
         let* _ := return_if_err err in
         let* w := get in
         let* _ := put (mkWorld (fs w) (buildInfo w) (launched w) true (done_chan w)) in
         Return (buildInfo_Write h (buildInfo w)))
      (mkWorld (fs w) (map record_of reposList) (launched w ++ reposList)
         (wrote_buildInfo w) (Chan [] (length reposList))).
Proof.
  intros Hok Hlen. unfold install.
  erewrite run_bind_cont; [|reflexivity].
  erewrite run_bind_cont; [|apply Build_launch_loop_spec].
  erewrite run_bind_cont;
    [|apply (wait_done_clean err0 (schedule h) []);
      [simpl; rewrite app_nil_r; reflexivity|exact Hok|symmetry; exact Hlen]].
  reflexivity.
Qed.

(** X21: A build in which every worker succeeds and the configuration script is
    generated: the script is written to its path, [buildInfo.Repos] holds
    one record for each repository of the profile, in the order of the
    list and with its type, path and version, whatever it held before, and
    what [Build] returns is what [buildInfo.Write()] returns. *)
Theorem Build_records_the_profile (w w1 : World) reposList vimExePath err0 content :
  prepare h w = (Cont (reposList, vimExePath, err0), w1) ->
  admissible h vimExePath reposList ->
  Forall (fun r => err r = None) (schedule h) ->
  GenerateBundlePlugconf h reposList = (content, nil) ->
  WriteFile_err h (BundledPlugConf h) = nil ->
  Filepath.Dir (BundledPlugConf h) <> BundledPlugConf h ->
  (forall tree, fs w1 !! BundledPlugConf h <> Some (Dir tree)) ->
  exists w',
    run (Build h) w = (Returned (buildInfo_Write h (map record_of reposList)), w')
    /\ buildInfo w' = map record_of reposList
    /\ fs w' !! BundledPlugConf h = Some (File content)
    /\ wrote_buildInfo w' = true
    /\ done_chan w' = Chan [] (length reposList).
Proof.
  intros Hprep Hadm Hok Hgen Hwrite Hdir Hfile.
  rewrite (Build_after_prepare h _ _ _ _ _ Hprep).
  rewrite (install_collected reposList vimExePath err0 w1 Hok
             (Build_admissible_length h _ _ Hadm)).
  rewrite Hgen. set (conf := BundledPlugConf h) in *.
  destruct (os_MkdirAll_result (R := error) (MkdirAll_err h (Filepath.Dir conf))
              (Filepath.Dir conf) (fs w1)) as (e1 & f1 & Hmk & Hf1).
  assert (Hfree : forall tree, f1 !! conf <> Some (Dir tree)).
  { intros tree. destruct Hf1 as [->| ->]; [apply Hfile|].
    rewrite lookup_insert_ne by exact Hdir. apply Hfile. }
  erewrite run_bind_cont; [|reflexivity].
  erewrite run_bind_cont;
    [|unfold on_fs, zoom; cbn [fs]; rewrite Hmk; reflexivity].
  erewrite run_bind_cont;
    [|unfold on_fs, zoom; cbn [fs]; rewrite Hwrite;
      rewrite (ioutil_WriteFile_ok (R := error) f1 conf content Hfree); reflexivity].
  eexists. split; [reflexivity|]. cbn.
  repeat split. apply lookup_insert_eq.
Qed.

(** X22: When the configuration script does not parse, [Build] returns that
    error after all the results were received, and writes neither the
    script nor the build information. *)
Theorem Build_plugconf_error_writes_nothing (w w1 : World) reposList vimExePath err0
    content e :
  prepare h w = (Cont (reposList, vimExePath, err0), w1) ->
  admissible h vimExePath reposList ->
  Forall (fun r => err r = None) (schedule h) ->
  GenerateBundlePlugconf h reposList = (content, Some e) ->
  exists w',
    run (Build h) w = (Returned (Some e), w')
    /\ fs w' = fs w1
    /\ wrote_buildInfo w' = wrote_buildInfo w1
    /\ done_chan w' = Chan [] (length reposList).
Proof.
  intros Hprep Hadm Hok Hgen.
  rewrite (Build_after_prepare h _ _ _ _ _ Hprep).
  rewrite (install_collected reposList vimExePath err0 w1 Hok
             (Build_admissible_length h _ _ Hadm)).
  rewrite Hgen. eexists. split; [reflexivity|]. repeat split.
Qed.

End Builder.

Import Examples.

Lemma installRepos_links_working_copy_witness :
  run (installRepos fullPath packPath plainOpen "linux" symlink_ok extraction_fails
         caw "/usr/bin/vim") init
  = (Returned tt,
     mkState ([] ++ [(OsSymlink "repos/github.com/tyru/caw.vim"
                        "opt/github.com_tyru_caw.vim", nil);
                     (Helptags "github.com/tyru/caw.vim" "/usr/bin/vim", nil)])
             ([] ++ [mkResult nil (Some caw)]))
  /\ run (installRepos fullPath packPath plainOpen "windows" no_links extraction_fails
            notes "vim.exe") init
     = (Returned tt,
        mkState ([] ++ [(Mklink "opt/localhost_local_notes" "repos/localhost/local/notes",
                         Some "operation not permitted")])
                ([] ++ [mkResult (Some "operation not permitted") None])).
Proof.
  split.
  - apply (installRepos_links_working_copy fullPath packPath plainOpen "linux" symlink_ok
             extraction_fails caw "/usr/bin/vim" init).
    right. exists (caw_repository false). split; reflexivity.
  - apply (installRepos_links_working_copy fullPath packPath plainOpen "windows" no_links
             extraction_fails notes "vim.exe" init).
    left. discriminate.
Defined.


Lemma twice_caw_is_admissible : admissible twice_caw "/usr/bin/vim" [caw; caw].
Proof.
  unfold admissible. vm_compute.
  apply arrival_go, arrival_go.
  apply (arrival_send _ [] [] [] [_]).
  apply (arrival_exit [] [] [_]).
  apply (arrival_send _ [] [] [] []).
  apply (arrival_exit [] [] []). apply arrival_nil.
Qed.

Lemma broken_plugconf_admissible :
  admissible (broken_plugconf [caw; caw] [caw_linked; caw_linked]) "/usr/bin/vim"
    [caw; caw].
Proof.
  unfold admissible. vm_compute.
  apply arrival_go, arrival_go.
  apply (arrival_send _ [] [] [] [_]).
  apply (arrival_exit [] [] [_]).
  apply (arrival_send _ [] [] [] []).
  apply (arrival_exit [] [] []). apply arrival_nil.
Qed.

Lemma Build_records_the_profile_witness :
  exists w',
    run (Build twice_caw) (symlink_world source_fs)
    = (Returned nil, w')
    /\ buildInfo w' = [record_of caw; record_of caw]
    /\ fs w' !! "vim/pack/volt/opt/system/plugin/bundled_plugconf.vim"
       = Some (File (list_byte_of_string "let g:loaded = 1"))
    /\ wrote_buildInfo w' = true
    /\ done_chan w' = Chan [] 2.
Proof.
  apply (Build_records_the_profile twice_caw (symlink_world source_fs)
           (snd (prepare twice_caw (symlink_world source_fs)))
           [caw; caw] "/usr/bin/vim" nil (list_byte_of_string "let g:loaded = 1")).
  - vm_compute. reflexivity.
  - exact twice_caw_is_admissible.
  - repeat constructor.
  - reflexivity.
  - reflexivity.
  - vm_compute. discriminate.
  - intros tree. vm_compute. discriminate.
Defined.

Lemma Build_plugconf_error_writes_nothing_witness :
  exists w',
    run (Build (broken_plugconf [caw; caw] [caw_linked; caw_linked]))
      (symlink_world source_fs)
    = (Returned (Some "parse error in plugconf"), w')
    /\ fs w' = fs (snd (prepare (broken_plugconf [caw; caw] [caw_linked; caw_linked])
                          (symlink_world source_fs)))
    /\ wrote_buildInfo w'
       = wrote_buildInfo (snd (prepare (broken_plugconf [caw; caw] [caw_linked; caw_linked])
                                 (symlink_world source_fs)))
    /\ done_chan w' = Chan [] 2.
Proof.
  apply (Build_plugconf_error_writes_nothing
           (broken_plugconf [caw; caw] [caw_linked; caw_linked])
           (symlink_world source_fs)
           (snd (prepare (broken_plugconf [caw; caw] [caw_linked; caw_linked])
                   (symlink_world source_fs)))
           [caw; caw] "/usr/bin/vim" nil []).
  - vm_compute. reflexivity.
  - exact broken_plugconf_admissible.
  - repeat constructor.
  - reflexivity.
Defined.

End LinkFacts.
